(** * thorlabs_DDS100: the KBD101 / DDS100 stage driver, embedded and verified

    A shallow embedding of [thorlabs_DDS100.py] (class [Controller]).

    - Python [float] is IEEE 754 binary64.  A float is modelled by its exact
      rational value (or an infinity, or NaN), and every arithmetic operation
      returns the exact result rounded to the nearest binary64 value, ties to
      even ([rne53]).  The sign of zero is not modelled: the driver never
      observes it.
    - Python [bytes] is [list byte].
    - The serial port is an abstract [Transport]: [write], [read],
      [inWaiting], together with the log of every byte written so far.
    - A method is a function from the object's state to an [outcome]: either
      a result and the new state, or a raised exception and the state the
      object was left in when it was raised.
    - Console output ([print] under [verbose] / [very_verbose]) is left out. *)

From Stdlib Require Import ZArith QArith Qabs Qround Qpower Lia Lqa List Bool.
From Stdlib Require Import Strings.Byte Strings.String.
From Stdlib Require Floats.SpecFloat.
Import ListNotations.

Local Open Scope Z_scope.

(* ================================================================== *)
(** ** Python numbers *)

Module PyNum.

(** The exceptions the driver can raise. *)
Inductive exn : Type :=
| AssertionError
| AttributeError
| IndexError
| IOError
| OverflowError
| UnicodeDecodeError
| ValueError
| ZeroDivisionError.

(** A binary64 value: a finite one by its exact value, an infinity by its
    sign, or NaN. *)
Inductive pyfloat : Type :=
| Finite (q : Q)
| Infinity (negative : bool)
| NaN.

Definition two_pow (e : Z) : Q := Qpower (2 # 1) e.

(** [floor (log2 q)] for a positive rational [q]. *)
Definition ilog2 (q : Q) : Z :=
  let k := Z.log2 (Qnum q) - Z.log2 (Zpos (Qden q)) in
  if Qle_bool (two_pow k) q then k else k - 1.

(** Nearest integer, ties to the even one: Python's [round] on a float, and
    the rounding of binary64 significands. *)
Definition round_half_even (q : Q) : Z :=
  let f := Qfloor q in
  match Qcompare (q - inject_Z f)%Q (1 # 2) with
  | Lt => f
  | Gt => f + 1
  | Eq => if Z.even f then f else f + 1
  end.

(** Round an exact rational to binary64 (53-bit significand, least exponent
    -1074, overflow from 2^1024), nearest, ties to even. *)
Definition rne53 (q : Q) : pyfloat :=
  if Qeq_bool q 0%Q then Finite 0%Q
  else
    let e := Z.max (ilog2 (Qabs q) - 52) (-1074) in
    let r := (inject_Z (round_half_even (q / two_pow e)) * two_pow e)%Q in
    if Qle_bool (two_pow 1024) (Qabs r)
    then Infinity (negb (Qle_bool 0%Q q))
    else Finite (Qred r).

Definition fopp (a : pyfloat) : pyfloat :=
  match a with
  | Finite x => Finite (Qred (- x)%Q)
  | Infinity s => Infinity (negb s)
  | NaN => NaN
  end.

Definition fadd (a b : pyfloat) : pyfloat :=
  match a, b with
  | NaN, _ | _, NaN => NaN
  | Finite x, Finite y => rne53 (x + y)%Q
  | Infinity s, Finite _ | Finite _, Infinity s => Infinity s
  | Infinity s, Infinity t => if Bool.eqb s t then Infinity s else NaN
  end.

Definition fsub (a b : pyfloat) : pyfloat := fadd a (fopp b).

Definition fmul (a b : pyfloat) : pyfloat :=
  match a, b with
  | NaN, _ | _, NaN => NaN
  | Finite x, Finite y => rne53 (x * y)%Q
  | Infinity s, Finite y | Finite y, Infinity s =>
      if Qeq_bool y 0%Q then NaN else Infinity (xorb s (negb (Qle_bool 0%Q y)))
  | Infinity s, Infinity t => Infinity (xorb s t)
  end.

(** [a <= b] on floats; false as soon as one side is NaN. *)
Definition fle (a b : pyfloat) : bool :=
  match a, b with
  | NaN, _ | _, NaN => false
  | Finite x, Finite y => Qle_bool x y
  | Infinity true, _ => true
  | _, Infinity false => true
  | Infinity false, _ => false
  | _, Infinity true => false
  end.

(** [a >= b]. *)
Definition fge (a b : pyfloat) : bool := fle b a.

(** Half an ulp, relative: [2^-53]. *)
Definition u53 : Q := 1 # 9007199254740992.

(** A float literal of the source text: the binary64 nearest to the decimal. *)
Definition literal (q : Q) : pyfloat := rne53 q.

(** [float(n)] for an int [n], as done implicitly in mixed arithmetic. *)
Definition float_of_int (n : Z) : exn + pyfloat :=
  match rne53 (inject_Z n) with
  | Infinity _ => inl OverflowError
  | f => inr f
  end.

(** [a / b] on two ints: the correctly rounded quotient. *)
Definition int_truediv (a b : Z) : exn + pyfloat :=
  if b =? 0 then inl ZeroDivisionError
  else
    match rne53 (inject_Z a / inject_Z b)%Q with
    | Infinity _ => inl OverflowError
    | f => inr f
    end.

(** A number a caller can pass: an int or a float. *)
Inductive pynum : Type :=
| PyInt (n : Z)
| PyFloat (f : pyfloat).

(** [x * n] for a number [x] and an int [n]. *)
Definition mul_int (x : pynum) (n : Z) : exn + pynum :=
  match x with
  | PyInt a => inr (PyInt (a * n))
  | PyFloat f =>
      match float_of_int n with
      | inl e => inl e
      | inr g => inr (PyFloat (fmul f g))
      end
  end.

(** [int(round(x))]. *)
Definition int_round (x : pynum) : exn + Z :=
  match x with
  | PyInt a => inr a
  | PyFloat (Finite q) => inr (round_half_even q)
  | PyFloat (Infinity _) => inl OverflowError
  | PyFloat NaN => inl ValueError
  end.

End PyNum.
Import PyNum.

(* ================================================================== *)
(** ** Python bytes *)

Module PyBytes.

Definition bytes := list byte.

Definition byte_to_Z (b : byte) : Z := Z.of_N (Byte.to_N b).

Definition byte_of_Z (z : Z) : byte :=
  match Byte.of_N (Z.to_N (z mod 256)) with
  | Some b => b
  | None => x00
  end.

(** [bs[a:b]]: a slice never raises, it is cut at the end of [bs]. *)
Definition slice (a b : nat) (bs : bytes) : bytes :=
  firstn (b - a) (skipn a bs).

(** [bs[i]]: raises [IndexError] out of range. *)
Definition index (bs : bytes) (i : nat) : exn + Z :=
  match nth_error bs i with
  | Some b => inr (byte_to_Z b)
  | None => inl IndexError
  end.

(** [int.from_bytes(bs, byteorder='little')]: [signed] defaults to [False]. *)
Fixpoint from_bytes_little (bs : bytes) : Z :=
  match bs with
  | [] => 0
  | b :: rest => byte_to_Z b + 256 * from_bytes_little rest
  end.

(** The [length] low bytes of [n], least significant first. *)
Fixpoint little_digits (length : nat) (n : Z) : bytes :=
  match length with
  | O => []
  | S k => byte_of_Z n :: little_digits k (n / 256)
  end.

(** [n.to_bytes(length, byteorder='little', signed=True)]: two's complement,
    [OverflowError] when [n] does not fit. *)
Definition to_bytes_little_signed (length : nat) (n : Z) : exn + bytes :=
  let half := 2 ^ (8 * Z.of_nat length - 1) in
  if (- half <=? n) && (n <? half)
  then inr (little_digits length n)
  else inl OverflowError.

(** How a signed reader would take the same bytes (used to state what the
    driver does not do). *)
Definition from_bytes_little_signed (bs : bytes) : Z :=
  let n := from_bytes_little bs in
  let full := 2 ^ (8 * Z.of_nat (List.length bs)) in
  if 2 * n <? full then n else n - full.

(** [bs.decode('ascii')]. *)
Definition decode_ascii (bs : bytes) : exn + string :=
  if forallb (fun b => byte_to_Z b <? 128) bs
  then inr (string_of_list_byte bs)
  else inl UnicodeDecodeError.

End PyBytes.
Import PyBytes.

(* ================================================================== *)
(** ** The serial port *)

(** What the driver uses of [serial.Serial]: [write], [read] (up to [n]
    bytes, fewer on timeout), [inWaiting].  [port_sent] is the log of every
    byte written so far, which only [write] extends. *)
Class Transport (P : Type) : Type := {
  port_write : bytes -> P -> P;
  port_read : nat -> P -> bytes * P;
  port_inWaiting : P -> nat;
  port_sent : P -> bytes;
  sent_write : forall cmd p, port_sent (port_write cmd p) = port_sent p ++ cmd;
  sent_read : forall n p, port_sent (snd (port_read n p)) = port_sent p;
  read_length : forall n p, (List.length (fst (port_read n p)) <= n)%nat
}.

(** A scripted port for tests: [inbuf] holds the bytes already received,
    [later] the bytes the device will still deliver while a [read] blocks. *)
Record MockPort : Type := mkMock {
  sent : bytes;
  inbuf : bytes;
  later : bytes
}.

Definition mock_write (cmd : bytes) (p : MockPort) : MockPort :=
  mkMock (sent p ++ cmd) (inbuf p) (later p).

Definition mock_read (n : nat) (p : MockPort) : bytes * MockPort :=
  (firstn n (inbuf p ++ later p),
   mkMock (sent p) (skipn n (inbuf p)) (skipn (n - List.length (inbuf p)) (later p))).

Definition mock_inWaiting (p : MockPort) : nat := List.length (inbuf p).

(* ================================================================== *)
(** ** The controller object *)

Section Driver.

Context {P : Type} {T : Transport P}.

(** The attributes of a [Controller].  The calibration constants are plain
    fields: [__init__] assigns them before any method that reads them runs.
    An attribute that only a method assigns is [None] until then, and
    reading it raises [AttributeError]. *)
Record Controller : Type := mkController {
  port : P;
  model_number : option string;
  type : option Z;
  serial_number : option Z;
  firmware_v : option Z;
  hardware_v : option Z;
  position_min_mm : Z;
  position_max_mm : Z;
  range_tol_mm : pyfloat;
  EncCnt_per_mm : Z;
  offset_mm : pyfloat;
  offset_counts : Z;
  enable : option bool;
  ch_id_bytes : option bytes;
  position_mm : option pyfloat;
  _moving : option bool
}.

Definition set_port (v : P) (s : Controller) : Controller :=
  mkController v (model_number s) (type s) (serial_number s) (firmware_v s)
    (hardware_v s) (position_min_mm s) (position_max_mm s) (range_tol_mm s)
    (EncCnt_per_mm s) (offset_mm s) (offset_counts s) (enable s)
    (ch_id_bytes s) (position_mm s) (_moving s).

Definition set_info (m : string) (t sn fw hw : Z) (s : Controller) : Controller :=
  mkController (port s) (Some m) (Some t) (Some sn) (Some fw) (Some hw)
    (position_min_mm s) (position_max_mm s) (range_tol_mm s)
    (EncCnt_per_mm s) (offset_mm s) (offset_counts s) (enable s)
    (ch_id_bytes s) (position_mm s) (_moving s).

Definition set_enable (v : bool) (s : Controller) : Controller :=
  mkController (port s) (model_number s) (type s) (serial_number s)
    (firmware_v s) (hardware_v s) (position_min_mm s) (position_max_mm s)
    (range_tol_mm s) (EncCnt_per_mm s) (offset_mm s) (offset_counts s)
    (Some v) (ch_id_bytes s) (position_mm s) (_moving s).

Definition set_ch_id_bytes (v : bytes) (s : Controller) : Controller :=
  mkController (port s) (model_number s) (type s) (serial_number s)
    (firmware_v s) (hardware_v s) (position_min_mm s) (position_max_mm s)
    (range_tol_mm s) (EncCnt_per_mm s) (offset_mm s) (offset_counts s)
    (enable s) (Some v) (position_mm s) (_moving s).

Definition set_position_mm (v : pyfloat) (s : Controller) : Controller :=
  mkController (port s) (model_number s) (type s) (serial_number s)
    (firmware_v s) (hardware_v s) (position_min_mm s) (position_max_mm s)
    (range_tol_mm s) (EncCnt_per_mm s) (offset_mm s) (offset_counts s)
    (enable s) (ch_id_bytes s) (Some v) (_moving s).

Definition set_moving (v : bool) (s : Controller) : Controller :=
  mkController (port s) (model_number s) (type s) (serial_number s)
    (firmware_v s) (hardware_v s) (position_min_mm s) (position_max_mm s)
    (range_tol_mm s) (EncCnt_per_mm s) (offset_mm s) (offset_counts s)
    (enable s) (ch_id_bytes s) (position_mm s) (Some v).

(** *** Methods as state transformers that may raise *)

Inductive outcome (A : Type) : Type :=
| Ok (a : A) (s : Controller)
| Raise (e : exn) (s : Controller).
Arguments Ok {A} a s.
Arguments Raise {A} e s.

Definition M (A : Type) : Type := Controller -> outcome A.

Definition ret {A} (a : A) : M A := fun s => Ok a s.

Definition bind {A B} (m : M A) (k : A -> M B) : M B :=
  fun s => match m s with
           | Ok a s' => k a s'
           | Raise e s' => Raise e s'
           end.

Definition raise {A} (e : exn) : M A := fun s => Raise e s.

Definition lift {A} (r : exn + A) : M A :=
  match r with
  | inl e => raise e
  | inr a => ret a
  end.

Definition assert (b : bool) : M unit :=
  if b then ret tt else raise AssertionError.

(** Read an attribute of [self]. *)
Definition attr {A} (f : Controller -> option A) : M A :=
  fun s => match f s with
           | Some a => Ok a s
           | None => Raise AttributeError s
           end.

Definition const {A} (f : Controller -> A) : M A := fun s => Ok (f s) s.

Definition modify (f : Controller -> Controller) : M unit :=
  fun s => Ok tt (f s).

Definition write (cmd : bytes) : M unit :=
  fun s => Ok tt (set_port (port_write cmd (port s)) s).

Definition read (n : nat) : M bytes :=
  fun s => let (r, p) := port_read n (port s) in Ok r (set_port p s).

Definition inWaiting : M nat := fun s => Ok (port_inWaiting (port s)) s.

Notation "x <- m ;; k" := (bind m (fun x => k))
  (at level 61, m at next level, right associativity).
Notation "m ;;; k" := (bind m (fun _ => k))
  (at level 61, right associativity).

(** *** [_send] *)

Definition _send (cmd : bytes) (response_bytes : option nat) : M (option bytes) :=
  write cmd ;;;
  response <- match response_bytes with
              | Some n => r <- read n ;; ret (Some r)
              | None => ret None
              end ;;
  waiting <- inWaiting ;;
  assert (Nat.eqb waiting 0) ;;;
  ret response.

(** A reply that was asked for is a [bytes] object. *)
Definition reply (response : option bytes) : bytes :=
  match response with
  | Some r => r
  | None => []
  end.

(** *** [_get_info]: MGMSG_HW_REQ_INFO *)

Definition cmd_get_info : bytes := [x05; x00; x00; x00; x50; x01].

Definition _get_info : M (option bytes) :=
  response <- _send cmd_get_info (Some 90%nat) ;;
  let r := reply response in
  m <- lift (decode_ascii (slice 10 18 r)) ;;
  modify (set_info m
            (from_bytes_little (slice 18 20 r))
            (from_bytes_little (slice 6 10 r))
            (from_bytes_little (slice 20 24 r))
            (from_bytes_little (slice 84 86 r))) ;;;
  ret response.

(** *** [_get_enable]: MGMSG_MOD_REQ_CHANENABLESTATE *)

Definition cmd_get_enable : bytes := [x11; x02; x00; x00; x50; x01].

Definition _get_enable : M bool :=
  response <- _send cmd_get_enable (Some 6%nat) ;;
  status <- lift (index (reply response) 3) ;;
  assert ((status =? 1) || (status =? 2)) ;;;
  (if status =? 1 then modify (set_enable true) else ret tt) ;;;
  (if status =? 2 then modify (set_enable false) else ret tt) ;;;
  attr enable.

(** *** [_set_enable]: MGMSG_MOD_SET_CHANENABLESTATE *)

Definition cmd_set_enable (enable : bool) : bytes :=
  if enable
  then [x10; x02; x00; x01; x50; x01]
  else [x10; x02; x00; x02; x50; x01].

Definition _set_enable (enable : bool) : M unit :=
  _send (cmd_set_enable enable) None ;;;
  confirmed <- _get_enable ;;
  assert (Bool.eqb confirmed enable) ;;;
  ret tt.

(** *** [_home]: MGMSG_MOT_MOVE_HOME *)

Definition cmd_home : bytes := [x43; x04; x00; x00; x50; x01].

Definition _home : M unit :=
  _send cmd_home (Some 6%nat) ;;;
  ret tt.

(** *** [identify]: MGMSG_MOD_IDENTIFY *)

Definition cmd_identify : bytes := [x23; x02; x00; x00; x50; x01].

Definition identify : M (option bytes) :=
  _send cmd_identify None.

(** *** [get_position_mm]: MGMSG_MOT_REQ_POSCOUNTER *)

Definition cmd_get_position : bytes := [x11; x04; x00; x00; x50; x01].

Definition get_position_mm : M pyfloat :=
  response <- _send cmd_get_position (Some 12%nat) ;;
  let r := reply response in
  modify (set_ch_id_bytes (slice 6 8 r)) ;;;
  let position_counts := from_bytes_little (slice 8 12 r) in
  per_mm <- const EncCnt_per_mm ;;
  position <- lift (int_truediv position_counts per_mm) ;;
  offset <- const offset_mm ;;
  modify (set_position_mm (fsub position offset)) ;;;
  attr position_mm.

(** *** [_finish_move] *)

Definition _finish_move : M unit :=
  moving <- attr _moving ;;
  if negb moving then ret tt
  else
    read 20 ;;;
    modify (set_moving false) ;;;
    ret tt.

(** *** [move_mm]: MGMSG_MOT_MOVE_RELATIVE / MGMSG_MOT_MOVE_ABSOLUTE *)

(** The 'destination byte': [bytes([b'\x50'[0] | b'\x80'[0]])]. *)
Definition d : bytes := [byte_of_Z (Z.lor (byte_to_Z x50) (byte_to_Z x80))].

(** Lines 132-133 of [move_mm]: the request in counts, and the request
    legalized to a whole number of counts. *)
Definition legalize (move_mm : pynum) (per_mm : Z) : exn + (Z * pyfloat) :=
  match mul_int move_mm per_mm with
  | inl e => inl e
  | inr scaled =>
      match int_round scaled with
      | inl e => inl e
      | inr position_counts =>
          match int_truediv position_counts per_mm with
          | inl e => inl e
          | inr move_mm => inr (position_counts, move_mm)
          end
      end
  end.

Definition move_mm (move_mm : pynum) (relative block : bool) : M unit :=
  moving <- attr _moving ;;
  (if moving then _finish_move else ret tt) ;;;
  per_mm <- const EncCnt_per_mm ;;
  legal <- lift (legalize move_mm per_mm) ;;
  let (position_counts, move_mm) := legal in
  cmd <- (if relative then
            position <- attr position_mm ;;
            modify (set_position_mm (fadd position move_mm)) ;;;
            p <- lift (to_bytes_little_signed 4 position_counts) ;;
            ch <- attr ch_id_bytes ;;
            ret ([x48; x04; x06; x00] ++ d ++ [x01] ++ ch ++ p)
          else
            modify (set_position_mm move_mm) ;;;
            offset <- const offset_counts ;;
            let position_counts := position_counts + offset in
            p <- lift (to_bytes_little_signed 4 position_counts) ;;
            ch <- attr ch_id_bytes ;;
            ret ([x53; x04; x06; x00] ++ d ++ [x01] ++ ch ++ p)) ;;
  position <- attr position_mm ;;
  lo <- const position_min_mm ;;
  tol <- const range_tol_mm ;;
  lo <- lift (float_of_int lo) ;;
  assert (fge position (fsub lo tol)) ;;;
  position <- attr position_mm ;;
  hi <- const position_max_mm ;;
  tol <- const range_tol_mm ;;
  hi <- lift (float_of_int hi) ;;
  assert (fle position (fadd hi tol)) ;;;
  _send cmd None ;;;
  modify (set_moving true) ;;;
  (if block then _finish_move else ret tt) ;;;
  ret tt.

(** *** [__init__] *)

(** ['KBD101\x00\x00'] *)
Definition supported_model : string :=
  ("KBD101" ++ String Ascii.zero (String Ascii.zero EmptyString))%string.

Definition supported_firmware : Z := 131080.

(** The object as [__init__] fills it in: the calibration constants, and
    every attribute that only a method assigns still unset. *)
Definition blank (p : P) : Controller :=
  let position_min_mm := 0 in
  let position_max_mm := 100 in
  let range_tol_mm := literal (1 # 10) in
  let EncCnt_per_mm := 2000 in
  let offset_mm := literal (5 # 100) in
  let offset_counts := (* int(round(offset_mm * EncCnt_per_mm)), which is 100 *)
    match mul_int (PyFloat offset_mm) EncCnt_per_mm with
    | inr scaled => match int_round scaled with inr n => n | inl _ => 0 end
    | inl _ => 0
    end in
  mkController p None None None None None
    position_min_mm position_max_mm range_tol_mm EncCnt_per_mm offset_mm
    offset_counts None None None None.

(** The calls of [__init__] once the port is open (lines 23 to 36), on the
    object that holds the calibration constants. *)
Definition startup : M unit :=
  _get_info ;;;
  model <- attr model_number ;;
  assert (String.eqb model supported_model) ;;;
  firmware <- attr firmware_v ;;
  assert (firmware =? supported_firmware) ;;;
  _set_enable true ;;;
  _home ;;;
  get_position_mm ;;;
  modify (set_moving false) ;;;
  move_mm (PyInt 0) false true.

(** What [Controller(which_port)] gives: no object at all when the port
    cannot be opened, else the outcome of the startup sequence. *)
Inductive construction : Type :=
| NoConnection (e : exn)
| Started (o : outcome unit).

(** [opened] is what [serial.Serial(port=which_port, baudrate=115200,
    timeout=15)] gives: the open port, or [None] when it raises
    [SerialException]. *)
Definition __init__ (opened : option P) : construction :=
  match opened with
  | None => NoConnection IOError
  | Some p => Started (startup (blank p))
  end.

End Driver.

Arguments Controller P : clear implicits.
Arguments outcome P A : clear implicits.
Arguments construction P : clear implicits.
Arguments Ok {P A} a s.
Arguments Raise {P A} e s.

(* ================================================================== *)
(** ** What a method call does, in direct style

    The definitions below are not part of the driver: they name the pieces of
    [move_mm] the properties talk about, and give each method's effect as a
    plain function of the state, to which the method is proved equal. *)

Section Summary.

Context {P : Type} {T : Transport P}.

(** The state a pending move leaves once it is resolved: 20 bytes read, the
    flag cleared.  An idle state is left as it is. *)
Definition drained (s : Controller P) : Controller P :=
  match _moving s with
  | Some true => set_moving false (set_port (snd (port_read 20 (port s))) s)
  | _ => s
  end.

(** The two range assertions of [move_mm] on a position. *)
Definition range_ok (s : Controller P) (position : pyfloat) : bool :=
  match float_of_int (position_min_mm s), float_of_int (position_max_mm s) with
  | inr lo, inr hi =>
      fge position (fsub lo (range_tol_mm s))
      && fle position (fadd hi (range_tol_mm s))
  | _, _ => false
  end.

(** The position a move of the legalized [m] leads to. *)
Definition new_position (s : Controller P) (relative : bool) (m : pyfloat)
  : option pyfloat :=
  if relative
  then match position_mm s with
       | Some position => Some (fadd position m)
       | None => None
       end
  else Some m.

(** The count a move of [c] counts puts on the wire. *)
Definition wire_counts (s : Controller P) (relative : bool) (c : Z) : Z :=
  if relative then c else c + offset_counts s.

(** The bytes of a move command. *)
Definition move_header (relative : bool) : bytes :=
  if relative then [x48; x04; x06; x00] else [x53; x04; x06; x00].

Definition move_cmd (relative : bool) (ch p : bytes) : bytes :=
  move_header relative ++ d ++ [x01] ++ ch ++ p.

(** [move_mm] from an idle state. *)
Definition move_idle (x : pynum) (relative block : bool) (s : Controller P)
  : outcome P unit :=
  match legalize x (EncCnt_per_mm s) with
  | inl e => Raise e s
  | inr (c, m) =>
    match new_position s relative m with
    | None => Raise AttributeError s
    | Some position =>
      let s1 := set_position_mm position s in
      match to_bytes_little_signed 4 (wire_counts s relative c) with
      | inl e => Raise e s1
      | inr p =>
        match ch_id_bytes s with
        | None => Raise AttributeError s1
        | Some ch =>
          match float_of_int (position_min_mm s) with
          | inl e => Raise e s1
          | inr lo =>
            if fge position (fsub lo (range_tol_mm s)) then
              match float_of_int (position_max_mm s) with
              | inl e => Raise e s1
              | inr hi =>
                if fle position (fadd hi (range_tol_mm s)) then
                  let s2 := set_port (port_write (move_cmd relative ch p) (port s)) s1 in
                  if Nat.eqb (port_inWaiting (port s2)) 0 then
                    if block
                    then Ok tt (set_moving false
                                  (set_port (snd (port_read 20 (port s2)))
                                     (set_moving true s2)))
                    else Ok tt (set_moving true s2)
                  else Raise AssertionError s2
                else Raise AssertionError s1
              end
            else Raise AssertionError s1
          end
        end
      end
    end
  end.

(** The state a move that was sent ends in. *)
Definition after_move (block : bool) (cmd : bytes) (position : pyfloat)
  (s : Controller P) : Controller P :=
  let s2 := set_port (port_write cmd (port s)) (set_position_mm position s) in
  if block
  then set_moving false (set_port (snd (port_read 20 (port s2))) (set_moving true s2))
  else set_moving true s2.

(** What [_send] does to the port: write [cmd], then read the reply if one
    is asked for. *)
Definition exchange (cmd : bytes) (response_bytes : option nat) (p : P)
  : option bytes * P :=
  match response_bytes with
  | Some n => let (r, p') := port_read n (port_write cmd p) in (Some r, p')
  | None => (None, port_write cmd p)
  end.

(** A state that differs from [s] in its port at most. *)
Definition same_attributes (s s' : Controller P) : Prop :=
  s' = set_port (port s') s.

End Summary.

(* ================================================================== *)
(** ** The scripted port is a transport *)

Lemma mock_sent_write cmd p : sent (mock_write cmd p) = sent p ++ cmd.
Proof. reflexivity. Qed.

Lemma mock_sent_read n p : sent (snd (mock_read n p)) = sent p.
Proof. reflexivity. Qed.

Lemma mock_read_length n p : (List.length (fst (mock_read n p)) <= n)%nat.
Proof. unfold mock_read; simpl. apply firstn_le_length. Qed.

#[export] Instance MockTransport : Transport MockPort := {
  port_write := mock_write;
  port_read := mock_read;
  port_inWaiting := mock_inWaiting;
  port_sent := sent;
  sent_write := mock_sent_write;
  sent_read := mock_sent_read;
  read_length := mock_read_length
}.

(** *** Scenarios on the scripted port *)

(** A constructed controller on port [p]: enabled, channel id [01 00], at
    [position], with or without a move pending. *)
Definition stage (p : MockPort) (position : pyfloat) (moving : bool)
  : Controller MockPort :=
  set_moving moving
    (set_position_mm position
       (set_ch_id_bytes [x01; x00] (set_enable true (blank p)))).

(** A port on which nothing was written yet and the device will deliver
    [script]. *)
Definition fresh (script : bytes) : MockPort := mkMock [] [] script.

(** A port whose receive buffer already holds [received]. *)
Definition stale (received : bytes) : MockPort := mkMock [] received [].

(** The 20 bytes the device emits when a move completes. *)
Definition move_completed : bytes :=
  [x64; x04; x0e; x00; x81; x50] ++ repeat x00 14.

(** A get-info reply of the supported device. *)
Definition info_reply : bytes :=
  [x06; x00; x54; x00; x81; x50] ++ [x15; xcd; x5b; x07]
  ++ [x4b; x42; x44; x31; x30; x31; x00; x00] ++ [x2c; x00]
  ++ [x08; x00; x02; x00] ++ repeat x00 60 ++ [x02; x00] ++ repeat x00 4.

(** A get-enable reply with the given status byte. *)
Definition enable_reply (status : byte) : bytes :=
  [x12; x02; x01; status; x01; x50].

Definition home_reply : bytes := [x44; x04; x01; x00; x01; x50].

(** A get-position reply: channel id [01 00], then the four count bytes. *)
Definition position_reply (counts : bytes) : bytes :=
  [x12; x04; x06; x00; x81; x50] ++ [x01; x00] ++ counts.

(** What a supported device delivers during [__init__]. *)
Definition startup_script : bytes :=
  info_reply ++ enable_reply x01 ++ home_reply
  ++ position_reply [x00; x00; x00; x00] ++ move_completed.

(** An idle stage at position 0 whose device will acknowledge one move. *)
Definition idle_stage : Controller MockPort :=
  stage (fresh move_completed) (Finite 0%Q) false.

(** A stage at position 0 with a move pending, whose device will acknowledge
    that move and one more. *)
Definition moving_stage : Controller MockPort :=
  stage (fresh (move_completed ++ move_completed)) (Finite 0%Q) true.

(** A stage with a move pending whose receive buffer already holds the
    acknowledgement and two bytes more. *)
Definition cluttered_stage : Controller MockPort :=
  stage (stale (move_completed ++ [x00; x01])) (Finite 0%Q) true.

(** An object on which no position query has run yet. *)
Definition unqueried_stage : Controller MockPort :=
  set_moving false (set_position_mm (Finite 0%Q) (blank (fresh move_completed))).

(** A get-info reply of a device with firmware 131081. *)
Definition other_firmware_reply : bytes :=
  [x06; x00; x54; x00; x81; x50] ++ [x15; xcd; x5b; x07]
  ++ [x4b; x42; x44; x31; x30; x31; x00; x00] ++ [x2c; x00]
  ++ [x09; x00; x02; x00] ++ repeat x00 60 ++ [x02; x00] ++ repeat x00 4.

(** 100.1, the upper end of the range, and 100.1005, one count above it. *)
Definition upper_end : pynum := PyFloat (literal (1001 # 10)).
Definition above_upper_end : pynum := PyFloat (literal (1001005 # 10000)).

(** *** The rounding model against the bit-level binary64 of the library *)

Module Binary64.
Import Floats.SpecFloat.

Definition value (f : spec_float) : pyfloat :=
  match f with
  | S754_zero _ => Finite 0%Q
  | S754_infinity s => Infinity s
  | S754_nan => NaN
  | S754_finite s m e =>
      Finite (Qred (inject_Z (if s then Zneg m else Zpos m) * two_pow e)%Q)
  end.

(** The binary64 nearest to [m * 2^e]. *)
Definition b64 (m e : Z) : spec_float := binary_normalize 53 1024 m e false.

Definition samples : list spec_float :=
  [ b64 0 0; b64 1 0; b64 2000 0; b64 100 0; b64 (-7) (-3);
    b64 3602879701896397 (-56); b64 3602879701896397 (-55);
    b64 200200 0; b64 4294967295 0; b64 9007199254740993 0 ].

Definition same (a b : pyfloat) : bool :=
  match a, b with
  | Finite x, Finite y => Qeq_bool x y
  | Infinity s, Infinity t => Bool.eqb s t
  | NaN, NaN => true
  | _, _ => false
  end.

Definition agree (f : spec_float -> spec_float -> spec_float)
  (g : pyfloat -> pyfloat -> pyfloat) : bool :=
  forallb (fun a => forallb (fun b => same (value (f a b)) (g (value a) (value b)))
                      samples) samples.

Definition quotient (a b : pyfloat) : pyfloat :=
  match a, b with
  | Finite x, Finite y =>
      if Qeq_bool y 0 then (if Qeq_bool x 0 then NaN else Infinity (negb (Qle_bool 0 x)))
      else rne53 (x / y)%Q
  | _, _ => NaN
  end.

End Binary64.

(* ================================================================== *)
(** ** Symbolic execution of the methods *)

Section Execution.

Context {P : Type} {T : Transport P}.
Implicit Types s : Controller P.

Ltac run :=
  unfold lift, assert in *;
  unfold bind, ret, raise, attr, const, modify, write, read, inWaiting in *.

Lemma _send_None cmd s :
  _send cmd None s =
  let s' := set_port (port_write cmd (port s)) s in
  if Nat.eqb (port_inWaiting (port s')) 0
  then Ok None s' else Raise AssertionError s'.
Proof.
  unfold _send. run. cbn.
  destruct (Nat.eqb _ 0); reflexivity.
Qed.

Lemma _send_Some cmd n s :
  _send cmd (Some n) s =
  let rp := port_read n (port_write cmd (port s)) in
  let s' := set_port (snd rp) s in
  if Nat.eqb (port_inWaiting (snd rp)) 0
  then Ok (Some (fst rp)) s' else Raise AssertionError s'.
Proof.
  unfold _send. run. cbn.
  destruct (port_read n _) as [r p]. cbn.
  destruct (Nat.eqb _ 0); reflexivity.
Qed.

Lemma _finish_move_moving s :
  _moving s = Some true ->
  _finish_move s = Ok tt (drained s).
Proof.
  intros H. unfold _finish_move, drained. run. rewrite H. cbn.
  destruct (port_read 20 _) as [r p]. reflexivity.
Qed.

Lemma _finish_move_idle s :
  _moving s = Some false -> _finish_move s = Ok tt s.
Proof. intros H. unfold _finish_move. run. rewrite H. reflexivity. Qed.

Lemma _finish_move_unset s :
  _moving s = None -> _finish_move s = Raise AttributeError s.
Proof. intros H. unfold _finish_move. run. rewrite H. reflexivity. Qed.

Lemma drained_idle s : _moving s = Some false -> drained s = s.
Proof. unfold drained. intros ->. reflexivity. Qed.

Lemma drained_moving s m : _moving s = Some m -> _moving (drained s) = Some false.
Proof. unfold drained. intros H. rewrite H. destruct m; cbn; auto. Qed.

Lemma move_mm_idle x rel b s :
  _moving s = Some false -> move_mm x rel b s = move_idle x rel b s.
Proof.
  intros Hm. unfold move_mm, move_idle.
  unfold bind at 1, attr at 1. rewrite Hm.
  unfold bind at 1, ret at 1.
  unfold bind at 1, const at 1.
  unfold bind at 1.
  destruct (legalize x (EncCnt_per_mm s)) as [e|[c m]]; [reflexivity|].
  unfold lift at 1, ret at 1.
  unfold new_position, wire_counts, move_cmd, move_header.
  destruct rel; run; cbn.
  - destruct (position_mm s) as [pos0|]; [cbn|reflexivity].
    destruct (to_bytes_little_signed 4 c) as [|p]; [reflexivity|cbn].
    destruct (ch_id_bytes s) as [ch|]; [cbn|reflexivity].
    destruct (float_of_int (position_min_mm s)) as [|lo]; [reflexivity|cbn].
    destruct (fge _ _); [cbn|reflexivity].
    destruct (float_of_int (position_max_mm s)) as [|hi]; [reflexivity|cbn].
    destruct (fle _ _); [cbn|reflexivity].
    unfold _send. run. cbn.
    destruct (Nat.eqb _ 0); [cbn|reflexivity].
    destruct b; [|reflexivity].
    unfold _finish_move. run. cbn.
    destruct (port_read 20 _); reflexivity.
  - destruct (to_bytes_little_signed 4 (c + offset_counts s)) as [|p]; [reflexivity|cbn].
    destruct (ch_id_bytes s) as [ch|]; [cbn|reflexivity].
    destruct (float_of_int (position_min_mm s)) as [|lo]; [reflexivity|cbn].
    destruct (fge _ _); [cbn|reflexivity].
    destruct (float_of_int (position_max_mm s)) as [|hi]; [reflexivity|cbn].
    destruct (fle _ _); [cbn|reflexivity].
    unfold _send. run. cbn.
    destruct (Nat.eqb _ 0); [cbn|reflexivity].
    destruct b; [|reflexivity].
    unfold _finish_move. run. cbn.
    destruct (port_read 20 _); reflexivity.
Qed.

Lemma move_mm_drains x rel b s :
  _moving s = Some true -> move_mm x rel b s = move_mm x rel b (drained s).
Proof.
  intros H. pose proof (drained_moving s true H) as Hd.
  unfold move_mm, bind, attr. rewrite Hd, H.
  rewrite (_finish_move_moving s H). reflexivity.
Qed.

Lemma move_mm_unset x rel b s :
  _moving s = None -> move_mm x rel b s = Raise AttributeError s.
Proof. intros H. unfold move_mm, bind, attr. rewrite H. reflexivity. Qed.

(** [move_mm] in any state: resolve what is pending, then move. *)
Lemma move_mm_eq x rel b s :
  move_mm x rel b s =
  match _moving s with
  | None => Raise AttributeError s
  | Some _ => move_idle x rel b (drained s)
  end.
Proof.
  destruct (_moving s) as [[|]|] eqn:H.
  - rewrite (move_mm_drains _ _ _ _ H).
    apply move_mm_idle. exact (drained_moving s true H).
  - rewrite (drained_idle s H). apply move_mm_idle, H.
  - apply move_mm_unset, H.
Qed.

Lemma move_idle_Ok x rel b s s' :
  move_idle x rel b s = Ok tt s' <->
  exists c m position p ch,
    legalize x (EncCnt_per_mm s) = inr (c, m) /\
    new_position s rel m = Some position /\
    to_bytes_little_signed 4 (wire_counts s rel c) = inr p /\
    ch_id_bytes s = Some ch /\
    range_ok s position = true /\
    port_inWaiting (port_write (move_cmd rel ch p) (port s)) = 0%nat /\
    s' = after_move b (move_cmd rel ch p) position s.
Proof.
  unfold move_idle, range_ok, after_move. split.
  - intros H.
    destruct (legalize x (EncCnt_per_mm s)) as [e|[c m]] eqn:Hl; [discriminate|].
    destruct (new_position s rel m) as [position|] eqn:Hn; [|discriminate].
    destruct (to_bytes_little_signed 4 _) as [e|p] eqn:Hb; [discriminate|].
    destruct (ch_id_bytes s) as [ch|] eqn:Hc; [|discriminate].
    destruct (float_of_int (position_min_mm s)) as [e|lo]; [discriminate|].
    destruct (fge _ _) eqn:Hge; [|discriminate].
    destruct (float_of_int (position_max_mm s)) as [e|hi]; [discriminate|].
    destruct (fle _ _) eqn:Hle; [|discriminate].
    cbn [port set_port] in H.
    destruct (Nat.eqb _ 0) eqn:Hw; [|discriminate].
    exists c, m, position, p, ch.
    apply Nat.eqb_eq in Hw. rewrite Hge, Hle.
    repeat split; try reflexivity; try assumption.
    destruct b; inversion H; reflexivity.
  - intros (c & m & position & p & ch & Hl & Hn & Hb & Hc & Hr & Hw & ->).
    rewrite Hl, Hn, Hb, Hc.
    destruct (float_of_int (position_min_mm s)) as [e|lo]; [discriminate|].
    destruct (float_of_int (position_max_mm s)) as [e|hi]; [discriminate|].
    apply andb_true_iff in Hr. destruct Hr as [-> ->].
    cbn [port set_port]. rewrite Hw. cbn.
    destruct b; reflexivity.
Qed.

(** A move whose target fails a range assertion raises, having written
    nothing: its state is [s] with the rejected position cached. *)
Lemma move_idle_rejected x rel b s c m position :
  legalize x (EncCnt_per_mm s) = inr (c, m) ->
  new_position s rel m = Some position ->
  range_ok s position = false ->
  exists e, move_idle x rel b s = Raise e (set_position_mm position s).
Proof.
  intros Hl Hn Hr. unfold move_idle, range_ok in *. rewrite Hl, Hn.
  destruct (to_bytes_little_signed 4 _) as [e|p]; [eauto|].
  destruct (ch_id_bytes s) as [ch|]; [|eauto].
  destruct (float_of_int (position_min_mm s)) as [e|lo]; [eauto|].
  destruct (fge _ _); [|eauto].
  destruct (float_of_int (position_max_mm s)) as [e|hi]; [eauto|].
  cbn in Hr. rewrite Hr. eauto.
Qed.

(** Whenever a move from an idle state raises, either nothing was written,
    or the whole command was and bytes were found waiting after it. *)
Lemma move_idle_Raise x rel b s e s' :
  move_idle x rel b s = Raise e s' ->
  port s' = port s \/
  exists cmd, port s' = port_write cmd (port s) /\ port_inWaiting (port s') <> 0%nat.
Proof.
  unfold move_idle. intros H.
  destruct (legalize x (EncCnt_per_mm s)) as [e0|[c m]];
    [inversion H; auto|].
  destruct (new_position s rel m) as [position|]; [|inversion H; auto].
  destruct (to_bytes_little_signed 4 _) as [e0|p]; [inversion H; auto|].
  destruct (ch_id_bytes s) as [ch|]; [|inversion H; auto].
  destruct (float_of_int (position_min_mm s)) as [e0|lo]; [inversion H; auto|].
  destruct (fge _ _); [|inversion H; auto].
  destruct (float_of_int (position_max_mm s)) as [e0|hi]; [inversion H; auto|].
  destruct (fle _ _); [|inversion H; auto].
  cbn [port set_port] in H.
  destruct (Nat.eqb _ 0) eqn:Hw.
  - destruct b; discriminate.
  - inversion H; subst. right. eexists. split; [reflexivity|].
    cbn. apply Nat.eqb_neq, Hw.
Qed.

Lemma sent_drained s : port_sent (port (drained s)) = port_sent (port s).
Proof.
  unfold drained. destruct (_moving s) as [[|]|]; cbn; auto using sent_read.
Qed.

Lemma sent_after_move b cmd position s :
  port_sent (port (after_move b cmd position s)) = port_sent (port s) ++ cmd.
Proof.
  unfold after_move. destruct b; cbn.
  - rewrite sent_read. apply sent_write.
  - apply sent_write.
Qed.

(** *** The exchanges with a reply *)

Lemma _get_enable_eq s :
  _get_enable s =
  let rp := port_read 6 (port_write cmd_get_enable (port s)) in
  let s1 := set_port (snd rp) s in
  if Nat.eqb (port_inWaiting (snd rp)) 0 then
    match index (fst rp) 3 with
    | inl e => Raise e s1
    | inr status =>
        if status =? 1 then Ok true (set_enable true s1)
        else if status =? 2 then Ok false (set_enable false s1)
        else Raise AssertionError s1
    end
  else Raise AssertionError s1.
Proof.
  unfold _get_enable. unfold bind at 1. rewrite _send_Some. cbn zeta.
  destruct (Nat.eqb _ 0); [|reflexivity].
  run. cbn [reply].
  destruct (index _ 3) as [e|status]; [reflexivity|].
  destruct (status =? 1) eqn:H1.
  - apply Z.eqb_eq in H1. subst. reflexivity.
  - cbn. destruct (status =? 2); reflexivity.
Qed.

Lemma _set_enable_eq flag s :
  _set_enable flag s =
  let s0 := set_port (port_write (cmd_set_enable flag) (port s)) s in
  if Nat.eqb (port_inWaiting (port s0)) 0 then
    match _get_enable s0 with
    | Ok confirmed s1 =>
        if Bool.eqb confirmed flag then Ok tt s1 else Raise AssertionError s1
    | Raise e s1 => Raise e s1
    end
  else Raise AssertionError s0.
Proof.
  unfold _set_enable. unfold bind at 1. rewrite _send_None. cbn zeta.
  destruct (Nat.eqb _ 0); [|reflexivity].
  unfold bind at 1.
  destruct (_get_enable _) as [confirmed s1|e s1]; [|reflexivity].
  run. destruct (Bool.eqb confirmed flag); reflexivity.
Qed.

Lemma _home_eq s :
  _home s =
  let rp := port_read 6 (port_write cmd_home (port s)) in
  let s1 := set_port (snd rp) s in
  if Nat.eqb (port_inWaiting (snd rp)) 0 then Ok tt s1 else Raise AssertionError s1.
Proof.
  unfold _home. unfold bind at 1. rewrite _send_Some. cbn zeta.
  destruct (Nat.eqb _ 0); reflexivity.
Qed.

Lemma get_position_mm_eq s :
  get_position_mm s =
  let rp := port_read 12 (port_write cmd_get_position (port s)) in
  let s1 := set_port (snd rp) s in
  if Nat.eqb (port_inWaiting (snd rp)) 0 then
    let s2 := set_ch_id_bytes (slice 6 8 (fst rp)) s1 in
    match int_truediv (from_bytes_little (slice 8 12 (fst rp))) (EncCnt_per_mm s) with
    | inl e => Raise e s2
    | inr position =>
        Ok (fsub position (offset_mm s))
           (set_position_mm (fsub position (offset_mm s)) s2)
    end
  else Raise AssertionError s1.
Proof.
  unfold get_position_mm. unfold bind at 1. rewrite _send_Some. cbn zeta.
  destruct (Nat.eqb _ 0); [|reflexivity].
  run. cbn.
  destruct (int_truediv _ _); reflexivity.
Qed.

Lemma _get_info_eq s :
  _get_info s =
  let rp := port_read 90 (port_write cmd_get_info (port s)) in
  let r := fst rp in
  let s1 := set_port (snd rp) s in
  if Nat.eqb (port_inWaiting (snd rp)) 0 then
    match decode_ascii (slice 10 18 r) with
    | inl e => Raise e s1
    | inr m =>
        Ok (Some r)
           (set_info m (from_bytes_little (slice 18 20 r))
              (from_bytes_little (slice 6 10 r))
              (from_bytes_little (slice 20 24 r))
              (from_bytes_little (slice 84 86 r)) s1)
    end
  else Raise AssertionError s1.
Proof.
  unfold _get_info. unfold bind at 1. rewrite _send_Some. cbn zeta.
  destruct (Nat.eqb _ 0); [|reflexivity].
  run. cbn [reply].
  destruct (decode_ascii _); reflexivity.
Qed.

End Execution.

(* ================================================================== *)
(** ** Rounding: how far a binary64 result is from the exact one *)

Section Rounding.

Local Open Scope Q_scope.

Lemma round_half_even_near (t : Q) :
  Qabs (inject_Z (round_half_even t) - t) <= 1 # 2.
Proof.
  unfold round_half_even.
  pose proof (Qfloor_le t) as Hlo. pose proof (Qlt_floor t) as Hhi.
  rewrite inject_Z_plus in Hhi. change (inject_Z 1) with 1 in Hhi.
  apply Qabs_Qle_condition.
  destruct (Qcompare_spec (t - inject_Z (Qfloor t)) (1 # 2)) as [E|L|G].
  - destruct (Z.even (Qfloor t)); rewrite ?inject_Z_plus;
      change (inject_Z 1) with 1; split; lra.
  - split; lra.
  - rewrite inject_Z_plus. change (inject_Z 1) with 1. split; lra.
Qed.

Lemma round_half_even_unique (t : Q) (c : Z) :
  Qabs (t - inject_Z c) < 1 # 2 -> round_half_even t = c.
Proof.
  intros H. apply Qabs_Qlt_condition in H. destruct H as [H1 H2].
  unfold round_half_even.
  pose proof (Qfloor_le t) as Hlo. pose proof (Qlt_floor t) as Hhi.
  rewrite inject_Z_plus in Hhi. change (inject_Z 1) with 1 in Hhi.
  assert (Hf : (Qfloor t = c \/ c = Qfloor t + 1)%Z).
  { assert (A : (Qfloor t < c + 1)%Z).
    { rewrite Zlt_Qlt, inject_Z_plus. change (inject_Z 1) with 1. lra. }
    assert (B : (c < Qfloor t + 2)%Z).
    { rewrite Zlt_Qlt, inject_Z_plus. change (inject_Z 2) with 2. lra. }
    lia. }
  destruct Hf as [Hf|Hf].
  - rewrite Hf in *.
    destruct (Qcompare_spec (t - inject_Z c) (1 # 2)) as [E|L|G]; try lra.
    reflexivity.
  - subst c. rewrite inject_Z_plus in H1, H2. change (inject_Z 1) with 1 in *.
    destruct (Qcompare_spec (t - inject_Z (Qfloor t)) (1 # 2)) as [E|L|G];
      try lra.
    reflexivity.
Qed.

Lemma two_pow_pos e : 0 < two_pow e.
Proof. apply Qpower_0_lt. reflexivity. Qed.

Lemma two_pow_add a b : two_pow (a + b) == two_pow a * two_pow b.
Proof. apply Qpower_plus. discriminate. Qed.

Lemma two_pow_nonneg (n : Z) : (0 <= n)%Z -> two_pow n == inject_Z (2 ^ n).
Proof. intros H. unfold two_pow. rewrite Zpower_Qpower by assumption. reflexivity. Qed.

(** The lower half of the specification of [ilog2]. *)
Lemma ilog2_le (q : Q) : 0 < q -> two_pow (ilog2 q) <= q.
Proof.
  intros Hq. unfold ilog2.
  destruct (Qle_bool (two_pow _) q) eqn:E.
  - apply Qle_bool_iff, E.
  - clear E. destruct q as [n dq]. cbn [Qnum Qden].
    assert (Hn : (0 < n)%Z) by (unfold Qlt in Hq; cbn in Hq; lia).
    pose proof (Z.log2_spec n Hn) as [Ha _].
    pose proof (Z.log2_spec (Zpos dq) eq_refl) as [_ Hb].
    pose proof (Z.log2_nonneg n) as Ha0.
    pose proof (Z.log2_nonneg (Zpos dq)) as Hb0.
    set (a := Z.log2 n) in *. set (b := Z.log2 (Zpos dq)) in *.
    replace (a - b - 1)%Z with (a + - (b + 1))%Z by lia.
    rewrite two_pow_add. unfold two_pow at 2. rewrite Qpower_opp.
    fold (two_pow (b + 1)).
    rewrite !two_pow_nonneg by lia.
    rewrite (Qmake_Qdiv n dq).
    assert (A : inject_Z (2 ^ a) <= inject_Z n) by (rewrite <- Zle_Qle; exact Ha).
    assert (B : inject_Z (Zpos dq) <= inject_Z (2 ^ (b + 1)))
      by (rewrite <- Zle_Qle; lia).
    assert (C : 0 < inject_Z (Z.pos dq)) by reflexivity.
    assert (D : 0 < inject_Z (2 ^ a)).
    { rewrite <- two_pow_nonneg by lia. apply two_pow_pos. }
    unfold Qdiv.
    set (X := inject_Z (2 ^ a)) in *. set (Y := inject_Z (2 ^ (b + 1))) in *.
    set (N := inject_Z n) in *. set (D0 := inject_Z (Z.pos dq)) in *.
    assert (E1 : / Y <= / D0).
    { apply Qle_shift_inv_l; [exact C|].
      rewrite Qmult_comm. apply Qle_shift_div_r; lra. }
    assert (E2 : 0 < / Y) by (apply Qinv_lt_0_compat; lra).
    nra.
Qed.

Lemma rne53_near (q : Q) :
  two_pow (-1022) <= Qabs q -> Qabs q <= two_pow 1000 ->
  exists r, rne53 q = Finite (Qred r) /\ Qabs (r - q) <= Qabs q * two_pow (-53).
Proof.
  intros Hlo Hhi.
  assert (Hpos : 0 < Qabs q).
  { apply Qlt_le_trans with (2 := Hlo). apply two_pow_pos. }
  unfold rne53.
  destruct (Qeq_bool q 0) eqn:E0.
  { apply Qeq_bool_eq in E0. rewrite E0 in Hpos. discriminate Hpos. }
  set (e := Z.max (ilog2 (Qabs q) - 52) (-1074)).
  set (t := q / two_pow e).
  pose proof (two_pow_pos e) as He.
  pose proof (round_half_even_near t) as Hz.
  set (z := inject_Z (round_half_even t)) in *.
  assert (Ht : t * two_pow e == q).
  { unfold t. field. lra. }
  assert (Herr : Qabs (z * two_pow e - q) <= two_pow e * (1 # 2)).
  { assert (Ed : z * two_pow e - q == (z - t) * two_pow e) by (rewrite <- Ht; ring).
    rewrite Ed, Qabs_Qmult, (Qabs_pos (two_pow e)) by lra.
    nra. }
  assert (Hulp : two_pow e * (1 # 2) <= Qabs q * two_pow (-53)).
  { pose proof (ilog2_le (Qabs q) Hpos) as HL.
    pose proof (two_pow_pos (-53)) as H53.
    unfold e. destruct (Z.max_spec (ilog2 (Qabs q) - 52) (-1074)) as [[_ ->]|[_ ->]].
    - assert (Ec : two_pow (-1074) * (1 # 2) == two_pow (-1022) * two_pow (-53))
        by (vm_compute; reflexivity).
      rewrite Ec. nra.
    - replace (ilog2 (Qabs q) - 52)%Z with (ilog2 (Qabs q) + -52)%Z by lia.
      rewrite two_pow_add.
      assert (Ec : two_pow (-52) * (1 # 2) == two_pow (-53)) by (vm_compute; reflexivity).
      rewrite <- Qmult_assoc, Ec. nra. }
  exists (z * two_pow e). split.
  - assert (Hno : Qle_bool (two_pow 1024) (Qabs (z * two_pow e)) = false).
    { destruct (Qle_bool _ _) eqn:F; [|reflexivity].
      apply Qle_bool_iff in F. exfalso.
      assert (Tr : Qabs (z * two_pow e) <= Qabs q + Qabs (z * two_pow e - q)).
      { setoid_replace (z * two_pow e) with (q + (z * two_pow e - q)) at 1 by ring.
        apply Qabs_triangle. }
      assert (S53 : two_pow (-53) <= 1) by (vm_compute; discriminate).
      assert (Big : 2 * two_pow 1000 < two_pow 1024) by (vm_compute; reflexivity).
      nra. }
    rewrite Hno. reflexivity.
  - lra.
Qed.

Lemma two_pow_m53 : two_pow (-53) == u53.
Proof. vm_compute. reflexivity. Qed.

Lemma float_of_int_2000 : float_of_int 2000 = inr (Finite 2000).
Proof. vm_compute. reflexivity. Qed.

(** Rounding a quotient [c / 2000], for a count that is not zero. *)
Lemma truediv_2000_near (c : Z) :
  (c <> 0)%Z -> (Z.abs c <= 2 ^ 40)%Z ->
  exists r, int_truediv c 2000 = inr (Finite (Qred r)) /\
            Qabs (r - inject_Z c / 2000) <= Qabs (inject_Z c / 2000) * u53.
Proof.
  intros Hc Hb.
  assert (Hq : (1 # 2000) <= Qabs (inject_Z c / 2000) <= 1099511627776 # 2000).
  { assert (E : Qabs (inject_Z c / 2000) == inject_Z (Z.abs c) * (1 # 2000)).
    { unfold Qdiv. rewrite Qabs_Qmult. 
      change (Qabs (/ 2000)) with (1 # 2000).
      destruct c; try reflexivity. }
    rewrite E.
    assert (A : inject_Z 1 <= inject_Z (Z.abs c)) by (rewrite <- Zle_Qle; lia).
    assert (B : inject_Z (Z.abs c) <= inject_Z (2 ^ 40)) by (rewrite <- Zle_Qle; lia).
    change (inject_Z 1) with 1 in A. change (inject_Z (2 ^ 40)) with 1099511627776 in B.
    split; lra. }
  destruct (rne53_near (inject_Z c / 2000)) as (r & Hr & He).
  - apply Qle_trans with (1 # 2000); [vm_compute; discriminate | apply Hq].
  - apply Qle_trans with (1099511627776 # 2000); [apply Hq | vm_compute; discriminate].
  - exists r. split.
    + unfold int_truediv. cbn [Z.eqb]. 
      change (inject_Z 2000) with 2000. rewrite Hr. reflexivity.
    + rewrite <- two_pow_m53. exact He.
Qed.

Lemma legalize_counts (c : Z) :
  (Z.abs c <= 2 ^ 40)%Z ->
  exists m, int_truediv c 2000 = inr m /\ legalize (PyFloat m) 2000 = inr (c, m).
Proof.
  intros Hb.
  destruct (Z.eq_dec c 0) as [->|Hc].
  { exists (Finite 0). split; vm_compute; reflexivity. }
  destruct (truediv_2000_near c Hc Hb) as (r1 & Hd & H1).
  exists (Finite (Qred r1)). split; [exact Hd|].
  unfold legalize, mul_int. rewrite float_of_int_2000.
  cbn [fmul int_round].
  assert (A : 1 <= Qabs (inject_Z c) <= 1099511627776).
  { assert (E : Qabs (inject_Z c) == inject_Z (Z.abs c)) by (destruct c; reflexivity).
    rewrite E.
    assert (A : inject_Z 1 <= inject_Z (Z.abs c)) by (rewrite <- Zle_Qle; lia).
    assert (B : inject_Z (Z.abs c) <= inject_Z (2 ^ 40)) by (rewrite <- Zle_Qle; lia).
    change (inject_Z 1) with 1 in A. change (inject_Z (2 ^ 40)) with 1099511627776 in B.
    split; lra. }
  set (C := inject_Z c) in *.
  assert (Eq1 : Qabs (C / 2000) == Qabs C * (1 # 2000)).
  { unfold Qdiv. rewrite Qabs_Qmult. reflexivity. }
  rewrite Eq1 in H1. unfold u53 in H1.
  apply Qabs_Qle_condition in H1.
  pose proof (Qred_correct r1) as Er1.
  set (q1 := Qred r1) in *.
  (* the product q1 * 2000 is within |C| * 2^-53 of C *)
  assert (H2 : Qabs (q1 * 2000 - C) <= Qabs C * (1 # 9007199254740992)).
  { apply Qabs_Qle_condition. unfold Qdiv in H1.
    change (/ 2000) with (1 # 2000) in H1. split; lra. }
  assert (H3 : (1 # 2) <= Qabs (q1 * 2000) <= 2 * 1099511627776).
  { pose proof (Qabs_triangle_reverse (q1 * 2000) C) as T1.
    pose proof (Qabs_triangle_reverse C (q1 * 2000)) as T2.
    rewrite (Qabs_Qminus C) in T2.
    split; lra. }
  destruct (rne53_near (q1 * 2000)) as (r2 & Hr & He).
  { apply Qle_trans with (1 # 2); [vm_compute; discriminate | apply H3]. }
  { apply Qle_trans with (2 * 1099511627776); [apply H3 | vm_compute; discriminate]. }
  rewrite Hr.
  rewrite two_pow_m53 in He. unfold u53 in He.
  assert (Hc2 : round_half_even (Qred r2) = c).
  { apply round_half_even_unique. rewrite (Qred_correct r2). fold C.
    pose proof (Qabs_triangle (r2 - q1 * 2000) (q1 * 2000 - C)) as T.
    setoid_replace (r2 - q1 * 2000 + (q1 * 2000 - C)) with (r2 - C) in T by ring.
    lra. }
  rewrite Hc2, Hd. reflexivity.
Qed.

(** The model agrees with the library's bit-level binary64 operations on
    the sample values, the driver's constants among them. *)
Example rne53_agrees_with_binary64 :
  Binary64.agree (SpecFloat.SFmul 53 1024) fmul = true /\
  Binary64.agree (SpecFloat.SFadd 53 1024) fadd = true /\
  Binary64.agree (SpecFloat.SFsub 53 1024) fsub = true /\
  Binary64.agree (SpecFloat.SFdiv 53 1024) Binary64.quotient = true.
Proof. repeat split; vm_compute; reflexivity. Qed.

End Rounding.

(* ================================================================== *)
(** ** The motion state machine *)

Section Motion.

Context {P : Type} {T : Transport P}.
Implicit Types s : Controller P.

(** C10.  Resolving a pending move reads 20 bytes and clears the flag, and
    that is all: the bytes read are not looked at, and the outcome does not
    depend on what is still waiting in the port.  An exchange made through
    [_send] in the same state raises when bytes are left waiting. *)
Theorem finish_move_unchecked_drain s :
  _moving s = Some true ->
  _finish_move s
  = Ok tt (set_moving false (set_port (snd (port_read 20 (port s))) s))
  /\ (forall cmd n,
        port_inWaiting (snd (port_read n (port_write cmd (port s)))) <> 0%nat ->
        _send cmd (Some n) s
        = Raise AssertionError
            (set_port (snd (port_read n (port_write cmd (port s)))) s)).
Proof.
  intros H. split.
  - rewrite (_finish_move_moving s H). unfold drained. rewrite H. reflexivity.
  - intros cmd n Hw. rewrite _send_Some. cbn zeta.
    apply Nat.eqb_neq in Hw. rewrite Hw. reflexivity.
Qed.

(** C2.  A non-blocking move leaves the state Moving and a blocking one
    Idle; finishing a pending move leaves it Idle without writing; finishing
    with nothing pending changes nothing; and a move issued while Moving is
    the same move issued from the state the pending one was resolved to. *)
Theorem single_outstanding_move :
  (forall x rel s s',
      move_mm x rel false s = Ok tt s' -> _moving s' = Some true)
  /\ (forall x rel s s',
      move_mm x rel true s = Ok tt s' -> _moving s' = Some false)
  /\ (forall s, _moving s = Some true ->
      exists s1, _finish_move s = Ok tt s1 /\ _moving s1 = Some false
                 /\ port_sent (port s1) = port_sent (port s))
  /\ (forall s, _moving s = Some false -> _finish_move s = Ok tt s)
  /\ (forall x rel b s, _moving s = Some true ->
      exists s1, _finish_move s = Ok tt s1 /\ _moving s1 = Some false
                 /\ move_mm x rel b s = move_mm x rel b s1).
Proof.
  repeat split.
  - intros x rel s s' H. rewrite move_mm_eq in H.
    destruct (_moving s); [|discriminate].
    apply move_idle_Ok in H.
    destruct H as (c & m & position & p & ch & _ & _ & _ & _ & _ & _ & ->).
    reflexivity.
  - intros x rel s s' H. rewrite move_mm_eq in H.
    destruct (_moving s); [|discriminate].
    apply move_idle_Ok in H.
    destruct H as (c & m & position & p & ch & _ & _ & _ & _ & _ & _ & ->).
    reflexivity.
  - intros s H. exists (drained s). split; [|split].
    + apply _finish_move_moving, H.
    + apply (drained_moving s true H).
    + apply sent_drained.
  - intros s H. apply _finish_move_idle, H.
  - intros x rel b s H. exists (drained s). split; [|split].
    + apply _finish_move_moving, H.
    + apply (drained_moving s true H).
    + apply move_mm_drains, H.
Qed.

(** What a successful move has put on the wire. *)
Lemma move_mm_sent x rel b s s' :
  move_mm x rel b s = Ok tt s' ->
  exists c m position p ch,
    legalize x (EncCnt_per_mm s) = inr (c, m) /\
    new_position s rel m = Some position /\
    to_bytes_little_signed 4 (wire_counts s rel c) = inr p /\
    ch_id_bytes s = Some ch /\
    range_ok s position = true /\
    position_mm s' = Some position /\
    ch_id_bytes s' = Some ch /\
    port_sent (port s') = port_sent (port s) ++ move_cmd rel ch p.
Proof.
  intros H. rewrite move_mm_eq in H.
  destruct (_moving s) as [mv|] eqn:Hm; [|discriminate].
  apply move_idle_Ok in H.
  destruct H as (c & m & position & p & ch & Hl & Hn & Hb & Hc & Hr & _ & ->).
  exists c, m, position, p, ch.
  assert (Hd : forall A (f : Controller P -> A),
             (forall v q, f (set_moving v (set_port q s)) = f s) ->
             f (drained s) = f s).
  { intros A f Hf. unfold drained. destruct (_moving s) as [[|]|]; auto. }
  assert (E1 : EncCnt_per_mm (drained s) = EncCnt_per_mm s) by (apply Hd; reflexivity).
  assert (E2 : position_mm (drained s) = position_mm s) by (apply Hd; reflexivity).
  assert (E3 : offset_counts (drained s) = offset_counts s) by (apply Hd; reflexivity).
  assert (E4 : ch_id_bytes (drained s) = ch_id_bytes s) by (apply Hd; reflexivity).
  assert (E5 : range_ok (drained s) position = range_ok s position).
  { unfold range_ok.
    rewrite (Hd _ position_min_mm), (Hd _ position_max_mm), (Hd _ range_tol_mm);
      reflexivity. }
  unfold new_position, wire_counts in *.
  rewrite E1 in Hl. rewrite E2 in Hn. rewrite E3 in Hb. rewrite E4 in Hc.
  rewrite E5 in Hr.
  repeat split; try assumption.
  - unfold after_move. destruct b; reflexivity.
  - unfold after_move. destruct b; cbn; rewrite E4; exact Hc.
  - rewrite sent_after_move, sent_drained. reflexivity.
Qed.

End Motion.

(* ================================================================== *)
(** ** The bytes of a move command *)

Section Encoding.

Context {P : Type} {T : Transport P}.
Implicit Types s : Controller P.

Lemma little_digits_length n z : List.length (little_digits n z) = n.
Proof. revert z. induction n; intros z; cbn; [reflexivity|]. now rewrite IHn. Qed.

Lemma to_bytes_length n z p :
  to_bytes_little_signed n z = inr p -> List.length p = n.
Proof.
  unfold to_bytes_little_signed. destruct (_ && _); [|discriminate].
  intros H. inversion H. apply little_digits_length.
Qed.

Lemma slice_length a b (bs : bytes) :
  (b <= List.length bs)%nat -> List.length (slice a b bs) = (b - a)%nat.
Proof.
  intros H. unfold slice. rewrite length_firstn, length_skipn. lia.
Qed.

(** Without a channel id no move gets as far as the port. *)
Lemma move_idle_no_channel x rel b s :
  ch_id_bytes s = None ->
  exists e s', move_idle x rel b s = Raise e s' /\ port s' = port s.
Proof.
  intros Hc. unfold move_idle. rewrite Hc.
  destruct (legalize x (EncCnt_per_mm s)) as [e|[c m]]; [eauto|].
  destruct (new_position s rel m) as [position|]; [|eauto].
  destruct (to_bytes_little_signed 4 _) as [e|p]; eauto.
Qed.

(** C9.  A position query caches bytes 6 and 7 of its reply as the channel
    id; every move command that is sent carries the cached channel id
    unchanged between its header and its four count bytes; and with no
    channel id cached a move raises and writes nothing. *)
Theorem move_embeds_channel_id :
  (forall s v s',
      get_position_mm s = Ok v s' ->
      let r := fst (port_read 12 (port_write cmd_get_position (port s))) in
      ch_id_bytes s' = Some (slice 6 8 r)
      /\ (List.length r = 12%nat -> List.length (slice 6 8 r) = 2%nat))
  /\ (forall x rel b s s',
      move_mm x rel b s = Ok tt s' ->
      exists ch p,
        ch_id_bytes s = Some ch /\ ch_id_bytes s' = Some ch
        /\ List.length p = 4%nat
        /\ port_sent (port s')
           = port_sent (port s) ++ move_header rel ++ d ++ [x01] ++ ch ++ p)
  /\ (forall x rel b s,
      ch_id_bytes s = None ->
      exists e s', move_mm x rel b s = Raise e s'
                   /\ port_sent (port s') = port_sent (port s)).
Proof.
  repeat split.
  - rewrite get_position_mm_eq in H. cbn zeta in H.
    destruct (Nat.eqb _ 0); [|discriminate].
    destruct (int_truediv _ _); [discriminate|].
    inversion H. reflexivity.
  - intros Hr. apply slice_length. lia.
  - intros x rel b s s' H.
    destruct (move_mm_sent _ _ _ _ _ H)
      as (c & m & position & p & ch & _ & _ & Hb & Hc & _ & _ & Hc' & Hs).
    exists ch, p. repeat split; try assumption.
    apply (to_bytes_length _ _ _ Hb).
  - intros x rel b s Hc. rewrite move_mm_eq.
    destruct (_moving s) as [mv|] eqn:Hm; [|eauto].
    assert (Hd : ch_id_bytes (drained s) = None).
    { unfold drained. rewrite Hm. destruct mv; exact Hc. }
    destruct (move_idle_no_channel x rel b _ Hd) as (e & s' & He & Hp).
    exists e, s'. split; [exact He|]. rewrite Hp. apply sent_drained.
Qed.

Lemma legalize_zero : legalize (PyFloat (Finite 0%Q)) 2000 = inr (0, Finite 0%Q).
Proof. vm_compute. reflexivity. Qed.

(** C3.  A sent move command carries, after the channel id, the four bytes
    of the legalized count itself in relative mode and of the count plus
    [offset_counts] in absolute mode; so a relative move of 0.0 mm carries
    the count 0, and an absolute move to 0.0 mm carries [offset_counts]. *)
Theorem move_encodes_counts :
  (forall x rel b s s',
      move_mm x rel b s = Ok tt s' ->
      exists c m ch p,
        legalize x (EncCnt_per_mm s) = inr (c, m)
        /\ ch_id_bytes s = Some ch
        /\ to_bytes_little_signed 4 (if rel then c else c + offset_counts s) = inr p
        /\ port_sent (port s') = port_sent (port s) ++ move_cmd rel ch p)
  /\ (forall b s s',
      EncCnt_per_mm s = 2000 ->
      move_mm (PyFloat (Finite 0%Q)) true b s = Ok tt s' ->
      exists ch,
        port_sent (port s')
        = port_sent (port s) ++ move_cmd true ch [x00; x00; x00; x00])
  /\ (forall b s s',
      EncCnt_per_mm s = 2000 ->
      move_mm (PyFloat (Finite 0%Q)) false b s = Ok tt s' ->
      exists ch p,
        to_bytes_little_signed 4 (offset_counts s) = inr p
        /\ port_sent (port s') = port_sent (port s) ++ move_cmd false ch p).
Proof.
  repeat split.
  - intros x rel b s s' H.
    destruct (move_mm_sent _ _ _ _ _ H)
      as (c & m & position & p & ch & Hl & _ & Hb & Hc & _ & _ & _ & Hs).
    exists c, m, ch, p. auto.
  - intros b s s' He H.
    destruct (move_mm_sent _ _ _ _ _ H)
      as (c & m & position & p & ch & Hl & _ & Hb & Hc & _ & _ & _ & Hs).
    rewrite He, legalize_zero in Hl. inversion Hl; subst c m.
    cbn in Hb. inversion Hb; subst p. exists ch. exact Hs.
  - intros b s s' He H.
    destruct (move_mm_sent _ _ _ _ _ H)
      as (c & m & position & p & ch & Hl & _ & Hb & Hc & _ & _ & _ & Hs).
    rewrite He, legalize_zero in Hl. inversion Hl; subst c m.
    unfold wire_counts in Hb. rewrite Z.add_0_l in Hb.
    exists ch, p. auto.
Qed.

End Encoding.

(* ================================================================== *)
(** ** The range check *)

Section RangeCheck.

Context {P : Type} {T : Transport P}.
Implicit Types s : Controller P.

(** Resolving a pending move touches the port and the flag only. *)
Lemma drained_keeps s :
  EncCnt_per_mm (drained s) = EncCnt_per_mm s
  /\ offset_counts (drained s) = offset_counts s
  /\ ch_id_bytes (drained s) = ch_id_bytes s
  /\ position_mm (drained s) = position_mm s
  /\ (forall position, range_ok (drained s) position = range_ok s position).
Proof.
  unfold drained, range_ok. destruct (_moving s) as [[|]|]; cbn; auto.
Qed.

Lemma fle_refl a b : fle a b = true -> fle b b = true.
Proof.
  destruct a as [x|[|]|], b as [y|[|]|]; cbn; try discriminate; auto.
  all: intros _; apply Qle_bool_iff, Qle_refl.
Qed.

(** An absolute move does not read the cached position: it succeeds from a
    state exactly when it does from that state with another position cached,
    and ends in the same state. *)
Lemma move_idle_absolute_forgets v y b s s'' :
  move_idle y false b (set_position_mm v s) = Ok tt s''
  <-> move_idle y false b s = Ok tt s''.
Proof.
  unfold move_idle, new_position, wire_counts. cbn.
  destruct (legalize y (EncCnt_per_mm s)) as [e|[c m]]; [split; discriminate|].
  destruct (to_bytes_little_signed 4 _) as [e|p]; [split; discriminate|].
  destruct (ch_id_bytes s) as [ch|]; [|split; discriminate].
  destruct (float_of_int (position_min_mm s)) as [e|lo]; [split; discriminate|].
  destruct (fge _ _); [|split; discriminate].
  destruct (float_of_int (position_max_mm s)) as [e|hi]; [split; discriminate|].
  destruct (fle _ _); [|split; discriminate].
  destruct (Nat.eqb _ 0); [|split; discriminate].
  destruct b; split; intros H; exact H.
Qed.

(** C1, as the code has it.  The position a move leads to is checked against
    the closed interval from [position_min_mm - range_tol_mm] to
    [position_max_mm + range_tol_mm]: a successful move ends inside it, a
    move that leads exactly to the upper end passes the check, and a move
    that leads outside raises with nothing written to the port, after which
    an absolute move behaves as it would have without the rejected one. *)
Theorem move_range_check x rel b s :
  (forall s',
      move_mm x rel b s = Ok tt s' ->
      exists position lo hi,
        position_mm s' = Some position
        /\ float_of_int (position_min_mm s) = inr lo
        /\ float_of_int (position_max_mm s) = inr hi
        /\ fle (fsub lo (range_tol_mm s)) position = true
        /\ fle position (fadd hi (range_tol_mm s)) = true)
  /\ (forall c m lo hi ch p,
      _moving s <> None ->
      legalize x (EncCnt_per_mm s) = inr (c, m) ->
      float_of_int (position_min_mm s) = inr lo ->
      float_of_int (position_max_mm s) = inr hi ->
      new_position s rel m = Some (fadd hi (range_tol_mm s)) ->
      fle (fsub lo (range_tol_mm s)) (fadd hi (range_tol_mm s)) = true ->
      ch_id_bytes s = Some ch ->
      to_bytes_little_signed 4 (wire_counts s rel c) = inr p ->
      port_inWaiting (port_write (move_cmd rel ch p) (port (drained s))) = 0%nat ->
      exists s', move_mm x rel b s = Ok tt s')
  /\ (forall c m position,
      _moving s <> None ->
      legalize x (EncCnt_per_mm s) = inr (c, m) ->
      new_position s rel m = Some position ->
      range_ok s position = false ->
      exists e s',
        move_mm x rel b s = Raise e s'
        /\ port_sent (port s') = port_sent (port s)
        /\ (forall y b' s'',
              move_mm y false b' s' = Ok tt s''
              <-> move_mm y false b' s = Ok tt s'')).
Proof.
  destruct (drained_keeps s) as (K1 & K2 & K3 & K4 & K5).
  repeat split.
  - intros s' H.
    destruct (move_mm_sent _ _ _ _ _ H)
      as (c & m & position & p & ch & _ & _ & _ & _ & Hr & Hp & _).
    unfold range_ok in Hr.
    destruct (float_of_int (position_min_mm s)) as [e|lo]; [discriminate|].
    destruct (float_of_int (position_max_mm s)) as [e|hi]; [discriminate|].
    apply andb_true_iff in Hr. destruct Hr as [Hge Hle].
    exists position, lo, hi. auto.
  - intros c m lo hi ch p Hm Hl Hlo Hhi Hn Hne Hc Hb Hw.
    rewrite move_mm_eq. destruct (_moving s) as [mv|]; [|congruence].
    eexists. apply move_idle_Ok.
    exists c, m, (fadd hi (range_tol_mm s)), p, ch.
    unfold new_position, wire_counts in *.
    rewrite K1, K2, K3, K4, K5. repeat split; try assumption.
    unfold range_ok. rewrite Hlo, Hhi. unfold fge. rewrite Hne.
    apply (fle_refl _ _ Hne).
  - intros c m position Hm Hl Hn Hr.
    destruct (_moving s) as [mv|] eqn:Emv; [clear Hm|congruence].
    destruct (move_idle_rejected x rel b (drained s) c m position) as [e He].
    + rewrite K1. exact Hl.
    + unfold new_position in *. rewrite K4. exact Hn.
    + rewrite K5. exact Hr.
    + exists e, (set_position_mm position (drained s)). split; [|split].
      * rewrite move_mm_eq, Emv. exact He.
      * cbn. apply sent_drained.
      * intros y b' s''.
        pose proof (drained_moving s mv Emv) as Hd.
        rewrite (move_mm_idle y false b' (set_position_mm position (drained s)))
          by exact Hd.
        rewrite (move_mm_eq y false b' s), Emv.
        apply move_idle_absolute_forgets.
Qed.

End RangeCheck.

(* ================================================================== *)
(** ** Legalization *)

Section Legalization.

Context {P : Type} {T : Transport P}.
Implicit Types s : Controller P.

(** The legalized value is the count divided by the scale. *)
Lemma legalize_truediv x per_mm c m :
  legalize x per_mm = inr (c, m) -> int_truediv c per_mm = inr m.
Proof.
  unfold legalize.
  destruct (mul_int x per_mm) as [e|scaled]; [discriminate|].
  destruct (int_round scaled) as [e|c']; [discriminate|].
  destruct (int_truediv c' per_mm) as [e|m'] eqn:E; [discriminate|].
  intros H. inversion H; subst. exact E.
Qed.

Lemma to_bytes_range n z p :
  to_bytes_little_signed n z = inr p ->
  - 2 ^ (8 * Z.of_nat n - 1) <= z < 2 ^ (8 * Z.of_nat n - 1).
Proof.
  unfold to_bytes_little_signed.
  destruct (- 2 ^ _ <=? z) eqn:A; [|discriminate].
  destruct (z <? 2 ^ _) eqn:B; [|discriminate].
  intros _. apply Z.leb_le in A. apply Z.ltb_lt in B. lia.
Qed.

(** C8.  At 2000 counts per mm, legalizing the float of a whole number of
    counts gives back that count and that float, so legalizing a legalized
    value changes nothing; and a move that is sent puts an integer count on
    the wire, caches the position computed from the legalized value, and its
    legalized value is again a fixed point of legalization. *)
Theorem legalization_idempotent :
  (forall c,
      Z.abs c <= 2 ^ 40 ->
      exists m, int_truediv c 2000 = inr m
                /\ legalize (PyFloat m) 2000 = inr (c, m))
  /\ (forall x c m,
      legalize x 2000 = inr (c, m) ->
      Z.abs c <= 2 ^ 40 ->
      legalize (PyFloat m) 2000 = inr (c, m))
  /\ (forall x rel b s s',
      EncCnt_per_mm s = 2000 ->
      Z.abs (offset_counts s) <= 2 ^ 39 ->
      move_mm x rel b s = Ok tt s' ->
      exists c m,
        legalize x 2000 = inr (c, m)
        /\ int_truediv c 2000 = inr m
        /\ position_mm s' = new_position s rel m
        /\ legalize (PyFloat m) 2000 = inr (c, m)).
Proof.
  assert (Fix : forall x c m,
             legalize x 2000 = inr (c, m) -> Z.abs c <= 2 ^ 40 ->
             legalize (PyFloat m) 2000 = inr (c, m)).
  { intros x c m Hl Hb.
    destruct (legalize_counts c Hb) as (m' & Hd & Hl').
    rewrite (legalize_truediv _ _ _ _ Hl) in Hd. inversion Hd; subst m'.
    exact Hl'. }
  repeat split.
  - apply legalize_counts.
  - exact Fix.
  - intros x rel b s s' He Ho H.
    destruct (move_mm_sent _ _ _ _ _ H)
      as (c & m & position & p & ch & Hl & Hn & Hb & _ & _ & Hp & _).
    rewrite He in Hl. exists c, m.
    repeat split.
    + exact Hl.
    + apply (legalize_truediv _ _ _ _ Hl).
    + rewrite Hp, Hn. reflexivity.
    + apply (Fix x); [exact Hl|].
      apply to_bytes_range in Hb. unfold wire_counts in Hb.
      change (2 ^ (8 * Z.of_nat 4 - 1)) with 2147483648 in Hb.
      change (2 ^ 39) with 549755813888 in Ho.
      change (2 ^ 40) with 1099511627776.
      destruct rel; lia.
Qed.

End Legalization.

(* ================================================================== *)
(** ** Request and reply *)

Section Protocol.

Context {P : Type} {T : Transport P}.
Implicit Types s : Controller P.

Lemma _send_eq cmd response_bytes s :
  _send cmd response_bytes s =
  let rp := exchange cmd response_bytes (port s) in
  if Nat.eqb (port_inWaiting (snd rp)) 0
  then Ok (fst rp) (set_port (snd rp) s)
  else Raise AssertionError (set_port (snd rp) s).
Proof.
  destruct response_bytes as [n|]; unfold exchange.
  - rewrite _send_Some. cbn zeta. destruct (port_read n _). reflexivity.
  - rewrite _send_None. reflexivity.
Qed.

(** What a position query returns and caches, from the bytes of the reply. *)
Lemma get_position_mm_value s v s' :
  get_position_mm s = Ok v s' ->
  let r := fst (port_read 12 (port_write cmd_get_position (port s))) in
  exists q,
    int_truediv (from_bytes_little (slice 8 12 r)) (EncCnt_per_mm s) = inr q
    /\ v = fsub q (offset_mm s)
    /\ position_mm s' = Some v
    /\ ch_id_bytes s' = Some (slice 6 8 r).
Proof.
  rewrite get_position_mm_eq. cbn zeta.
  destruct (Nat.eqb _ 0); [|discriminate].
  destruct (int_truediv _ _) as [e|q]; [discriminate|].
  intros H. inversion H. exists q. auto.
Qed.

(** C5, as the code has it.  An exchange through [_send] raises
    [AssertionError] when bytes are waiting in the port after the command is
    written and the reply bytes asked for are read, and then no attribute is
    assigned: so it is for each method that decodes a reply.  [_get_enable]
    raises on a status byte other than 1 and 2, and on a reply too short to
    hold one, again assigning nothing. *)
Theorem desync_detection s :
  (forall cmd response_bytes,
      port_inWaiting (snd (exchange cmd response_bytes (port s))) <> 0%nat ->
      _send cmd response_bytes s
      = Raise AssertionError
          (set_port (snd (exchange cmd response_bytes (port s))) s))
  /\ (port_inWaiting (snd (port_read 90 (port_write cmd_get_info (port s)))) <> 0%nat ->
      _get_info s
      = Raise AssertionError
          (set_port (snd (port_read 90 (port_write cmd_get_info (port s)))) s))
  /\ (port_inWaiting (snd (port_read 6 (port_write cmd_get_enable (port s)))) <> 0%nat ->
      _get_enable s
      = Raise AssertionError
          (set_port (snd (port_read 6 (port_write cmd_get_enable (port s)))) s))
  /\ (port_inWaiting (snd (port_read 6 (port_write cmd_home (port s)))) <> 0%nat ->
      _home s
      = Raise AssertionError
          (set_port (snd (port_read 6 (port_write cmd_home (port s)))) s))
  /\ (port_inWaiting (snd (port_read 12 (port_write cmd_get_position (port s)))) <> 0%nat ->
      get_position_mm s
      = Raise AssertionError
          (set_port (snd (port_read 12 (port_write cmd_get_position (port s)))) s))
  /\ (forall status,
      port_inWaiting (snd (port_read 6 (port_write cmd_get_enable (port s)))) = 0%nat ->
      index (fst (port_read 6 (port_write cmd_get_enable (port s)))) 3 = inr status ->
      status <> 1 -> status <> 2 ->
      _get_enable s
      = Raise AssertionError
          (set_port (snd (port_read 6 (port_write cmd_get_enable (port s)))) s))
  /\ (port_inWaiting (snd (port_read 6 (port_write cmd_get_enable (port s)))) = 0%nat ->
      (List.length (fst (port_read 6 (port_write cmd_get_enable (port s)))) <= 3)%nat ->
      _get_enable s
      = Raise IndexError
          (set_port (snd (port_read 6 (port_write cmd_get_enable (port s)))) s)).
Proof.
  repeat split.
  - intros cmd rb Hw. rewrite _send_eq. cbn zeta.
    apply Nat.eqb_neq in Hw. rewrite Hw. reflexivity.
  - intros Hw. rewrite _get_info_eq. cbn zeta.
    apply Nat.eqb_neq in Hw. rewrite Hw. reflexivity.
  - intros Hw. rewrite _get_enable_eq. cbn zeta.
    apply Nat.eqb_neq in Hw. rewrite Hw. reflexivity.
  - intros Hw. rewrite _home_eq. cbn zeta.
    apply Nat.eqb_neq in Hw. rewrite Hw. reflexivity.
  - intros Hw. rewrite get_position_mm_eq. cbn zeta.
    apply Nat.eqb_neq in Hw. rewrite Hw. reflexivity.
  - intros status Hw Hi H1 H2. rewrite _get_enable_eq. cbn zeta.
    rewrite Hw, Hi. cbn [Nat.eqb].
    apply Z.eqb_neq in H1. apply Z.eqb_neq in H2. rewrite H1, H2. reflexivity.
  - intros Hw Hlen. rewrite _get_enable_eq. cbn zeta.
    rewrite Hw. cbn [Nat.eqb]. unfold index.
    apply nth_error_None in Hlen. rewrite Hlen. reflexivity.
Qed.

(** C6.  [_set_enable flag] writes the command, reads nothing back for it,
    and runs [_get_enable] at once: when it succeeds, that [_get_enable]
    returned [flag] and [enable] holds [flag]; when the state read back is
    the other one it raises [AssertionError].  [_get_enable] returns true on
    status byte 1 and false on status byte 2. *)
Theorem set_enable_self_verifying flag s :
  (forall s',
      _set_enable flag s = Ok tt s' ->
      port_inWaiting (port_write (cmd_set_enable flag) (port s)) = 0%nat
      /\ _get_enable (set_port (port_write (cmd_set_enable flag) (port s)) s)
         = Ok flag s'
      /\ enable s' = Some flag
      /\ port s'
         = snd (port_read 6
                  (port_write cmd_get_enable
                     (port_write (cmd_set_enable flag) (port s)))))
  /\ (forall confirmed s1,
      port_inWaiting (port_write (cmd_set_enable flag) (port s)) = 0%nat ->
      _get_enable (set_port (port_write (cmd_set_enable flag) (port s)) s)
      = Ok confirmed s1 ->
      confirmed <> flag ->
      _set_enable flag s = Raise AssertionError s1)
  /\ (forall v s',
      _get_enable s = Ok v s' ->
      index (fst (port_read 6 (port_write cmd_get_enable (port s)))) 3
      = inr (if v then 1 else 2)
      /\ enable s' = Some v).
Proof.
  assert (G : forall s0 v s',
             _get_enable s0 = Ok v s' ->
             index (fst (port_read 6 (port_write cmd_get_enable (port s0)))) 3
             = inr (if v then 1 else 2)
             /\ enable s' = Some v
             /\ port s' = snd (port_read 6 (port_write cmd_get_enable (port s0)))).
  { intros s0 v s'. rewrite _get_enable_eq. cbn zeta.
    destruct (Nat.eqb _ 0); [|discriminate].
    destruct (index _ 3) as [e|status]; [discriminate|].
    destruct (status =? 1) eqn:H1.
    - intros H. inversion H. apply Z.eqb_eq in H1. subst. auto.
    - destruct (status =? 2) eqn:H2; [|discriminate].
      intros H. inversion H. apply Z.eqb_eq in H2. subst. auto. }
  repeat split.
  - rewrite _set_enable_eq in H. cbn zeta in H. cbn [port set_port] in H.
    destruct (Nat.eqb _ 0) eqn:Hw; [|discriminate].
    apply Nat.eqb_eq, Hw.
  - rewrite _set_enable_eq in H. cbn zeta in H.
    destruct (Nat.eqb _ 0); [|discriminate].
    destruct (_get_enable _) as [confirmed s1|e s1]; [|discriminate].
    destruct (Bool.eqb confirmed flag) eqn:E; [|discriminate].
    apply Bool.eqb_prop in E. inversion H. subst. reflexivity.
  - rewrite _set_enable_eq in H. cbn zeta in H.
    destruct (Nat.eqb _ 0); [|discriminate].
    destruct (_get_enable _) as [confirmed s1|e s1] eqn:Hg; [|discriminate].
    destruct (Bool.eqb confirmed flag) eqn:E; [|discriminate].
    apply Bool.eqb_prop in E. inversion H. subst.
    apply (G _ _ _ Hg).
  - rewrite _set_enable_eq in H. cbn zeta in H.
    destruct (Nat.eqb _ 0); [|discriminate].
    destruct (_get_enable _) as [confirmed s1|e s1] eqn:Hg; [|discriminate].
    destruct (Bool.eqb confirmed flag) eqn:E; [|discriminate].
    inversion H. subst.
    destruct (G _ _ _ Hg) as (_ & _ & Hp). exact Hp.
  - intros confirmed s1 Hw Hg Hne. rewrite _set_enable_eq. cbn zeta.
    cbn [port set_port]. rewrite Hw. cbn [Nat.eqb]. rewrite Hg.
    destruct (Bool.eqb confirmed flag) eqn:E; [|reflexivity].
    apply Bool.eqb_prop in E. contradiction.
  - apply (G _ _ _ H).
  - apply (G _ _ _ H).
Qed.

End Protocol.

(* ================================================================== *)
(** ** Construction *)

Section Startup.

Context {P : Type} {T : Transport P}.
Implicit Types s : Controller P.

Lemma bind_modify {A} f (k : unit -> M A) s : bind (modify f) k s = k tt (f s).
Proof. reflexivity. Qed.

Lemma blank_EncCnt_per_mm (p : P) : EncCnt_per_mm (blank p) = 2000.
Proof. reflexivity. Qed.

Lemma blank_offset_counts (p : P) : offset_counts (blank p) = 100.
Proof. vm_compute. reflexivity. Qed.

Lemma legalize_int_zero : legalize (PyInt 0) 2000 = inr (0, Finite 0%Q).
Proof. vm_compute. reflexivity. Qed.

Lemma to_bytes_100 : to_bytes_little_signed 4 100 = inr [x64; x00; x00; x00].
Proof. vm_compute. reflexivity. Qed.

(** The startup sequence from any object with the scale 2000 and the offset
    of 100 counts: what it has written and read when it succeeds. *)
Lemma startup_Ok s0 c :
  EncCnt_per_mm s0 = 2000 ->
  offset_counts s0 = 100 ->
  startup s0 = Ok tt c ->
  let p1 := port_write cmd_get_info (port s0) in
  let info := port_read 90 p1 in
  let p2 := port_write (cmd_set_enable true) (snd info) in
  let p3 := port_write cmd_get_enable p2 in
  let en := port_read 6 p3 in
  let p4 := port_write cmd_home (snd en) in
  let hm := port_read 6 p4 in
  let p5 := port_write cmd_get_position (snd hm) in
  let pos := port_read 12 p5 in
  let ch := slice 6 8 (fst pos) in
  let p6 := port_write (move_cmd false ch [x64; x00; x00; x00]) (snd pos) in
  let ack := port_read 20 p6 in
  port c = snd ack
  /\ model_number c = Some supported_model
  /\ firmware_v c = Some supported_firmware
  /\ enable c = Some true
  /\ ch_id_bytes c = Some ch
  /\ position_mm c = Some (Finite 0%Q)
  /\ _moving c = Some false.
Proof.
  intros HE HO H p1 info p2 p3 en p4 hm p5 pos ch p6 ack.
  unfold startup in H.
  unfold bind at 1 in H. rewrite _get_info_eq in H. cbn zeta in H.
  fold p1 info in H.
  destruct (Nat.eqb (port_inWaiting (snd info)) 0); [|discriminate].
  destruct (decode_ascii _) as [e|m]; [discriminate|].
  unfold bind at 1, attr at 1 in H. cbn [model_number set_info] in H.
  unfold bind at 1 in H.
  destruct (String.eqb m supported_model) eqn:Em; [|discriminate].
  apply String.eqb_eq in Em. subst m.
  unfold assert at 1, ret at 1 in H.
  unfold bind at 1, attr at 1 in H. cbn [firmware_v set_info] in H.
  unfold bind at 1 in H.
  destruct (_ =? supported_firmware) eqn:Ef; [|discriminate].
  apply Z.eqb_eq in Ef.
  unfold assert at 1, ret at 1 in H.
  unfold bind at 1 in H. rewrite _set_enable_eq in H. cbn zeta in H.
  cbn [port set_port set_info] in H. fold p2 in H.
  destruct (Nat.eqb (port_inWaiting p2) 0); [|discriminate].
  rewrite _get_enable_eq in H. cbn zeta in H.
  cbn [port set_port set_info] in H. fold p3 en in H.
  destruct (Nat.eqb (port_inWaiting (snd en)) 0); [|discriminate].
  destruct (index (fst en) 3) as [e|status]; [discriminate|].
  destruct (status =? 1).
  2:{ destruct (status =? 2); discriminate. }
  cbn [Bool.eqb] in H.
  unfold bind at 1 in H. rewrite _home_eq in H. cbn zeta in H.
  cbn [port set_port set_info set_enable] in H. fold p4 hm in H.
  destruct (Nat.eqb (port_inWaiting (snd hm)) 0); [|discriminate].
  unfold bind at 1 in H. rewrite get_position_mm_eq in H. cbn zeta in H.
  cbn [port set_port set_info set_enable] in H. fold p5 pos in H.
  destruct (Nat.eqb (port_inWaiting (snd pos)) 0); [|discriminate].
  fold ch in H.
  destruct (int_truediv _ _) as [e|q]; [discriminate|].
  cbv beta iota in H. rewrite bind_modify in H.
  rewrite move_mm_idle in H by reflexivity.
  apply move_idle_Ok in H.
  destruct H as (c0 & m & position & p0 & ch0 & Hl & Hn & Hb & Hc & Hr & Hw & ->).
  cbn [EncCnt_per_mm set_moving set_position_mm set_ch_id_bytes set_port
       set_enable set_info] in Hl.
  rewrite HE, legalize_int_zero in Hl. injection Hl as <- <-.
  cbn [new_position] in Hn. injection Hn as <-.
  unfold wire_counts in Hb.
  cbn [offset_counts set_moving set_position_mm set_ch_id_bytes set_port
       set_enable set_info] in Hb.
  rewrite HO in Hb. cbn [Z.add] in Hb.
  rewrite to_bytes_100 in Hb. injection Hb as <-.
  cbn [ch_id_bytes set_moving set_position_mm set_ch_id_bytes] in Hc.
  injection Hc as <-.
  clear Hr Hw. unfold after_move.
  cbn [port model_number firmware_v enable ch_id_bytes position_mm _moving
       set_port set_moving set_position_mm set_ch_id_bytes set_enable set_info].
  fold p6 ack.
  split; [reflexivity|].
  split; [reflexivity|].
  split; [rewrite Ef; reflexivity|].
  repeat split; reflexivity.
Qed.

(** A reply that names another model or firmware stops the startup sequence
    right after the identity request. *)
Lemma startup_unsupported s0 m :
  let info := port_read 90 (port_write cmd_get_info (port s0)) in
  port_inWaiting (snd info) = 0%nat ->
  decode_ascii (slice 10 18 (fst info)) = inr m ->
  m <> supported_model
  \/ from_bytes_little (slice 20 24 (fst info)) <> supported_firmware ->
  exists s', startup s0 = Raise AssertionError s' /\ port s' = snd info.
Proof.
  intros info Hw Hd Hbad. unfold startup.
  unfold bind at 1. rewrite _get_info_eq. cbn zeta. fold info.
  rewrite Hw, Hd. cbn [Nat.eqb].
  unfold bind at 1, attr at 1. cbn [model_number set_info].
  unfold bind at 1.
  destruct (String.eqb m supported_model) eqn:Em.
  - apply String.eqb_eq in Em.
    destruct Hbad as [Hbad|Hbad]; [contradiction|].
    unfold assert at 1, ret at 1.
    unfold bind at 1, attr at 1. cbn [firmware_v set_info].
    unfold bind at 1.
    apply Z.eqb_neq in Hbad. rewrite Hbad.
    eexists. split; reflexivity.
  - eexists. split; reflexivity.
Qed.

(** C7.  Construction on an open port writes, in this order, the identity
    request, the enable command and the enable query, the home command, the
    position query and an absolute move to 0 on the channel the position
    reply named, reading the reply of each exchange that has one and the 20
    bytes of the move's completion; it ends idle at position 0, enabled, with
    the supported model and firmware.  A reply naming another model or
    firmware raises after the identity request alone was written.  With no
    port there is no object. *)
Theorem startup_sequence (p : P) :
  let p1 := port_write cmd_get_info p in
  let info := port_read 90 p1 in
  let p2 := port_write (cmd_set_enable true) (snd info) in
  let p3 := port_write cmd_get_enable p2 in
  let en := port_read 6 p3 in
  let p4 := port_write cmd_home (snd en) in
  let hm := port_read 6 p4 in
  let p5 := port_write cmd_get_position (snd hm) in
  let pos := port_read 12 p5 in
  let ch := slice 6 8 (fst pos) in
  let p6 := port_write (move_cmd false ch [x64; x00; x00; x00]) (snd pos) in
  let ack := port_read 20 p6 in
  (forall c,
      __init__ (Some p) = Started (Ok tt c) ->
      port c = snd ack
      /\ model_number c = Some supported_model
      /\ firmware_v c = Some supported_firmware
      /\ enable c = Some true
      /\ ch_id_bytes c = Some ch
      /\ position_mm c = Some (Finite 0%Q)
      /\ _moving c = Some false
      /\ port_sent (port c)
         = port_sent p ++ cmd_get_info ++ cmd_set_enable true ++ cmd_get_enable
           ++ cmd_home ++ cmd_get_position
           ++ move_cmd false ch [x64; x00; x00; x00])
  /\ (forall m,
      port_inWaiting (snd info) = 0%nat ->
      decode_ascii (slice 10 18 (fst info)) = inr m ->
      m <> supported_model
      \/ from_bytes_little (slice 20 24 (fst info)) <> supported_firmware ->
      exists s',
        __init__ (Some p) = Started (Raise AssertionError s')
        /\ port_sent (port s') = port_sent p ++ cmd_get_info)
  /\ @__init__ P T None = NoConnection IOError.
Proof.
  intros p1 info p2 p3 en p4 hm p5 pos ch p6 ack.
  split; [|split; [|reflexivity]].
  - intros c H. unfold __init__ in H. injection H as H.
    pose proof (startup_Ok (blank p) c (blank_EncCnt_per_mm p)
                  (blank_offset_counts p) H) as K.
    cbv zeta in K. change (port (blank p)) with p in K.
    fold p1 info p2 p3 en p4 hm p5 pos ch p6 ack in K.
    destruct K as (K1 & K2 & K3 & K4 & K5 & K6 & K7).
    repeat (split; [assumption|]).
    rewrite K1. unfold ack, p6, pos, p5, hm, p4, en, p3, p2, info, p1.
    repeat first [rewrite sent_read | rewrite sent_write].
    rewrite <- !app_assoc. reflexivity.
  - intros m Hw Hd Hbad.
    destruct (startup_unsupported (blank p) m Hw Hd Hbad) as (s' & Hs & Hp).
    exists s'. split.
    + unfold __init__. rewrite Hs. reflexivity.
    + rewrite Hp. change (port (blank p)) with p.
      rewrite sent_read, sent_write. reflexivity.
Qed.

End Startup.

(* ================================================================== *)
(** ** The properties at work on a scripted port *)

Section Scenarios.

(** A pending move is resolved although two bytes stay behind in the
    receive buffer; a position query in the same state is refused. *)
Lemma finish_move_unchecked_drain_witness :
  _finish_move cluttered_stage
  = Ok tt (set_moving false
             (set_port (snd (port_read 20 (port cluttered_stage))) cluttered_stage))
  /\ _send cmd_get_position (Some 12%nat) cluttered_stage
     = Raise AssertionError
         (set_port
            (snd (port_read 12 (port_write cmd_get_position (port cluttered_stage))))
            cluttered_stage).
Proof.
  destruct (finish_move_unchecked_drain cluttered_stage) as [A B].
  - vm_compute. reflexivity.
  - split; [exact A|]. apply B. vm_compute. lia.
Defined.

(** Moves to 20 mm, not blocking and blocking; finishing with and without a
    move pending; a relative move issued while one is pending. *)
Lemma single_outstanding_move_witness :
  (exists s', move_mm (PyInt 20) false false idle_stage = Ok tt s'
              /\ _moving s' = Some true)
  /\ (exists s', move_mm (PyInt 20) false true idle_stage = Ok tt s'
                 /\ _moving s' = Some false)
  /\ (exists s1, _finish_move moving_stage = Ok tt s1
                 /\ _moving s1 = Some false
                 /\ port_sent (port s1) = port_sent (port moving_stage))
  /\ _finish_move idle_stage = Ok tt idle_stage
  /\ (exists s1, _finish_move moving_stage = Ok tt s1
                 /\ _moving s1 = Some false
                 /\ move_mm (PyInt 20) true true moving_stage
                    = move_mm (PyInt 20) true true s1).
Proof.
  destruct (@single_outstanding_move MockPort MockTransport)
    as (A & B & C & D & E).
  split; [|split; [|split; [|split]]].
  - eexists. split; [vm_compute; reflexivity|].
    eapply (A (PyInt 20) false idle_stage). vm_compute. reflexivity.
  - eexists. split; [vm_compute; reflexivity|].
    eapply (B (PyInt 20) false idle_stage). vm_compute. reflexivity.
  - apply (C moving_stage). vm_compute. reflexivity.
  - apply (D idle_stage). vm_compute. reflexivity.
  - apply (E (PyInt 20) true true moving_stage). vm_compute. reflexivity.
Defined.

(** A position query caches the channel id [01 00] of the reply, a move
    carries it, and a move on an object that never queried raises. *)
Lemma move_embeds_channel_id_witness :
  (exists v s',
      get_position_mm (stage (fresh (position_reply [x00; x00; x00; x00]))
                         (Finite 0%Q) false) = Ok v s'
      /\ ch_id_bytes s' = Some [x01; x00])
  /\ (exists s' ch p,
      move_mm (PyInt 20) true true idle_stage = Ok tt s'
      /\ ch_id_bytes idle_stage = Some ch
      /\ ch_id_bytes s' = Some ch
      /\ List.length p = 4%nat
      /\ port_sent (port s')
         = port_sent (port idle_stage) ++ move_header true ++ d ++ [x01] ++ ch ++ p)
  /\ (exists e s',
      move_mm (PyInt 20) true true unqueried_stage = Raise e s'
      /\ port_sent (port s') = port_sent (port unqueried_stage)).
Proof.
  destruct (@move_embeds_channel_id MockPort MockTransport) as (A & B & C).
  split; [|split].
  - eexists. eexists.
    assert (H : get_position_mm
                  (stage (fresh (position_reply [x00; x00; x00; x00]))
                     (Finite 0%Q) false) = Ok _ _)
      by (vm_compute; reflexivity).
    destruct (A _ _ _ H) as [H1 _].
    split; [exact H|]. rewrite H1. vm_compute. reflexivity.
  - eexists.
    assert (H : move_mm (PyInt 20) true true idle_stage = Ok tt _)
      by (vm_compute; reflexivity).
    destruct (B _ _ _ _ _ H) as (ch & p & H1 & H2 & H3 & H4).
    exists ch, p. exact (conj H (conj H1 (conj H2 (conj H3 H4)))).
  - apply (C (PyInt 20) true true unqueried_stage). vm_compute. reflexivity.
Defined.

(** Moves of 20 mm, of 0.0 mm relative and to 0.0 mm absolute. *)
Lemma move_encodes_counts_witness :
  (exists s' c m ch p,
      move_mm (PyInt 20) false true idle_stage = Ok tt s'
      /\ legalize (PyInt 20) (EncCnt_per_mm idle_stage) = inr (c, m)
      /\ ch_id_bytes idle_stage = Some ch
      /\ to_bytes_little_signed 4 (c + offset_counts idle_stage) = inr p
      /\ port_sent (port s') = port_sent (port idle_stage) ++ move_cmd false ch p)
  /\ (exists s' ch,
      move_mm (PyFloat (Finite 0%Q)) true true idle_stage = Ok tt s'
      /\ port_sent (port s')
         = port_sent (port idle_stage) ++ move_cmd true ch [x00; x00; x00; x00])
  /\ (exists s' ch p,
      move_mm (PyFloat (Finite 0%Q)) false true idle_stage = Ok tt s'
      /\ to_bytes_little_signed 4 (offset_counts idle_stage) = inr p
      /\ port_sent (port s') = port_sent (port idle_stage) ++ move_cmd false ch p).
Proof.
  destruct (@move_encodes_counts MockPort MockTransport) as (A & B & C).
  split; [|split].
  - eexists.
    assert (H : move_mm (PyInt 20) false true idle_stage = Ok tt _)
      by (vm_compute; reflexivity).
    destruct (A _ _ _ _ _ H) as (c & m & ch & p & H1 & H2 & H3 & H4).
    exists c, m, ch, p. exact (conj H (conj H1 (conj H2 (conj H3 H4)))).
  - eexists.
    assert (H : move_mm (PyFloat (Finite 0%Q)) true true idle_stage = Ok tt _)
      by (vm_compute; reflexivity).
    destruct (B true idle_stage _ eq_refl H) as (ch & H1).
    exists ch. exact (conj H H1).
  - eexists.
    assert (H : move_mm (PyFloat (Finite 0%Q)) false true idle_stage = Ok tt _)
      by (vm_compute; reflexivity).
    destruct (C true idle_stage _ eq_refl H) as (ch & p & H1 & H2).
    exists ch, p. exact (conj H (conj H1 H2)).
Defined.

(** A move to 100.1 mm, the upper end, is sent; a relative move of 200 mm
    and a move to 100.1005 mm are refused with nothing written. *)
Lemma move_range_check_witness :
  (exists s' position lo hi,
      move_mm upper_end false true idle_stage = Ok tt s'
      /\ position_mm s' = Some position
      /\ float_of_int (position_min_mm idle_stage) = inr lo
      /\ float_of_int (position_max_mm idle_stage) = inr hi
      /\ fle (fsub lo (range_tol_mm idle_stage)) position = true
      /\ fle position (fadd hi (range_tol_mm idle_stage)) = true)
  /\ (exists s', move_mm upper_end false true moving_stage = Ok tt s')
  /\ (exists e s',
      move_mm (PyInt 200) true true moving_stage = Raise e s'
      /\ port_sent (port s') = port_sent (port moving_stage)
      /\ (forall y b' s'',
            move_mm y false b' s' = Ok tt s''
            <-> move_mm y false b' moving_stage = Ok tt s''))
  /\ (exists e s',
      move_mm above_upper_end false true idle_stage = Raise e s'
      /\ port_sent (port s') = port_sent (port idle_stage)
      /\ (forall y b' s'',
            move_mm y false b' s' = Ok tt s''
            <-> move_mm y false b' idle_stage = Ok tt s'')).
Proof.
  split; [|split; [|split]].
  - eexists.
    assert (H : move_mm upper_end false true idle_stage = Ok tt _)
      by (vm_compute; reflexivity).
    destruct (proj1 (move_range_check upper_end false true idle_stage) _ H)
      as (position & lo & hi & H1).
    exists position, lo, hi. split; [exact H|exact H1].
  - eapply (proj1 (proj2 (move_range_check upper_end false true moving_stage))).
    + vm_compute. discriminate.
    + vm_compute. reflexivity.
    + vm_compute. reflexivity.
    + vm_compute. reflexivity.
    + vm_compute. reflexivity.
    + vm_compute. reflexivity.
    + vm_compute. reflexivity.
    + vm_compute. reflexivity.
    + vm_compute. reflexivity.
  - eapply (proj2 (proj2 (move_range_check (PyInt 200) true true moving_stage))).
    + vm_compute. discriminate.
    + vm_compute. reflexivity.
    + vm_compute. reflexivity.
    + vm_compute. reflexivity.
  - eapply (proj2 (proj2 (move_range_check above_upper_end false true idle_stage))).
    + vm_compute. discriminate.
    + vm_compute. reflexivity.
    + vm_compute. reflexivity.
    + vm_compute. reflexivity.
Defined.

(** C1, against the claim.  A relative move of 200 mm issued at position 0
    while a move is pending is refused by the range check with nothing
    written, and leaves the session changed: the pending move was resolved,
    20 bytes were read, and the cached position holds the refused 200 mm. *)
Lemma move_rejected_changes_state :
  exists s',
    move_mm (PyInt 200) true true moving_stage = Raise AssertionError s'
    /\ port_sent (port s') = port_sent (port moving_stage)
    /\ _moving moving_stage = Some true /\ _moving s' = Some false
    /\ position_mm moving_stage = Some (Finite 0%Q)
    /\ position_mm s' = Some (Finite 200%Q)
    /\ s' <> moving_stage.
Proof.
  eexists. split; [vm_compute; reflexivity|].
  repeat split; try (vm_compute; reflexivity).
  intros H. apply (f_equal _moving) in H. vm_compute in H. discriminate H.
Qed.

(** Bytes left waiting, a status byte 3 and a two-byte reply each make the
    exchange raise. *)
Lemma desync_detection_witness :
  _send cmd_identify None
    (stage (stale [x00]) (Finite 0%Q) false)
  = Raise AssertionError
      (set_port (snd (exchange cmd_identify None (stale [x00])))
         (stage (stale [x00]) (Finite 0%Q) false))
  /\ get_position_mm cluttered_stage
     = Raise AssertionError
         (set_port
            (snd (port_read 12 (port_write cmd_get_position (port cluttered_stage))))
            cluttered_stage)
  /\ _get_enable (stage (fresh (enable_reply x03)) (Finite 0%Q) false)
     = Raise AssertionError
         (set_port
            (snd (port_read 6 (port_write cmd_get_enable (fresh (enable_reply x03)))))
            (stage (fresh (enable_reply x03)) (Finite 0%Q) false))
  /\ _get_enable (stage (fresh [x12; x02]) (Finite 0%Q) false)
     = Raise IndexError
         (set_port
            (snd (port_read 6 (port_write cmd_get_enable (fresh [x12; x02]))))
            (stage (fresh [x12; x02]) (Finite 0%Q) false)).
Proof.
  split; [|split; [|split]].
  - destruct (desync_detection (stage (stale [x00]) (Finite 0%Q) false))
      as (A & _).
    apply (A cmd_identify None). vm_compute. lia.
  - destruct (desync_detection cluttered_stage) as (_ & _ & _ & _ & A & _).
    apply A. vm_compute. lia.
  - destruct (desync_detection (stage (fresh (enable_reply x03)) (Finite 0%Q) false))
      as (_ & _ & _ & _ & _ & A & _).
    apply (A 3).
    + vm_compute. reflexivity.
    + vm_compute. reflexivity.
    + lia.
    + lia.
  - destruct (desync_detection (stage (fresh [x12; x02]) (Finite 0%Q) false))
      as (_ & _ & _ & _ & _ & _ & A).
    apply A.
    + vm_compute. reflexivity.
    + vm_compute. lia.
Defined.

(** C5, against the claim.  A position query whose read times out with no
    byte at all raises nothing: it caches an empty channel id and returns
    the position decoded from no bytes, -0.05 mm. *)
Lemma short_reply_is_decoded :
  List.length
    (fst (port_read 12
            (port_write cmd_get_position
               (port (stage (fresh []) (Finite 0%Q) false))))) = 0%nat
  /\ exists v s',
      get_position_mm (stage (fresh []) (Finite 0%Q) false) = Ok v s'
      /\ ch_id_bytes s' = Some []
      /\ position_mm s' = Some v
      /\ v = fsub (Finite 0%Q) (literal (5 # 100)).
Proof.
  split; [vm_compute; reflexivity|].
  eexists. eexists. split; [vm_compute; reflexivity|].
  repeat split; vm_compute; reflexivity.
Qed.

(** Enabling a device that confirms, and one that reports itself disabled. *)
Lemma set_enable_self_verifying_witness :
  (exists s',
      _set_enable true (stage (fresh (enable_reply x01)) (Finite 0%Q) false)
      = Ok tt s'
      /\ enable s' = Some true)
  /\ (exists s1,
      _set_enable true (stage (fresh (enable_reply x02)) (Finite 0%Q) false)
      = Raise AssertionError s1)
  /\ (exists s',
      _get_enable (stage (fresh (enable_reply x02)) (Finite 0%Q) false)
      = Ok false s'
      /\ enable s' = Some false).
Proof.
  split; [|split].
  - eexists.
    assert (H : _set_enable true
                  (stage (fresh (enable_reply x01)) (Finite 0%Q) false) = Ok tt _)
      by (vm_compute; reflexivity).
    destruct (proj1 (set_enable_self_verifying true _) _ H) as (_ & _ & H1 & _).
    exact (conj H H1).
  - eexists.
    eapply (proj1 (proj2 (set_enable_self_verifying true
              (stage (fresh (enable_reply x02)) (Finite 0%Q) false))) false).
    + vm_compute. reflexivity.
    + vm_compute. reflexivity.
    + discriminate.
  - eexists.
    assert (H : _get_enable
                  (stage (fresh (enable_reply x02)) (Finite 0%Q) false) = Ok false _)
      by (vm_compute; reflexivity).
    destruct (proj2 (proj2 (set_enable_self_verifying true _)) _ _ H) as (_ & H1).
    exact (conj H H1).
Defined.

(** Construction on a port whose device answers as the supported one, and on
    one whose device reports firmware 131081. *)
Lemma startup_sequence_witness :
  (exists c,
      __init__ (Some (fresh startup_script)) = Started (Ok tt c)
      /\ position_mm c = Some (Finite 0%Q)
      /\ _moving c = Some false
      /\ port_sent (port c)
         = cmd_get_info ++ cmd_set_enable true ++ cmd_get_enable ++ cmd_home
           ++ cmd_get_position
           ++ move_cmd false [x01; x00] [x64; x00; x00; x00])
  /\ (exists s',
      __init__ (Some (fresh other_firmware_reply))
      = Started (Raise AssertionError s')
      /\ port_sent (port s') = cmd_get_info).
Proof.
  split.
  - eexists.
    assert (H : __init__ (Some (fresh startup_script)) = Started (Ok tt _))
      by (vm_compute; reflexivity).
    destruct (proj1 (startup_sequence (fresh startup_script)) _ H)
      as (_ & _ & _ & _ & _ & H1 & H2 & H3).
    split; [exact H|]. split; [exact H1|]. split; [exact H2|].
    rewrite H3. vm_compute. reflexivity.
  - destruct (proj1 (proj2 (startup_sequence (fresh other_firmware_reply)))
                supported_model) as (s' & H1 & H2).
    + vm_compute. reflexivity.
    + vm_compute. reflexivity.
    + right. vm_compute. discriminate.
    + exists s'. split; [exact H1|]. rewrite H2. vm_compute. reflexivity.
Defined.

(** The count 12345, the request 3.14159 mm, and a move to 20 mm. *)
Lemma legalization_idempotent_witness :
  (exists m, int_truediv 12345 2000 = inr m
             /\ legalize (PyFloat m) 2000 = inr (12345, m))
  /\ (exists c m,
      legalize (PyFloat (literal (314159 # 100000))) 2000 = inr (c, m)
      /\ legalize (PyFloat m) 2000 = inr (c, m))
  /\ (exists s' c m,
      move_mm (PyInt 20) false true idle_stage = Ok tt s'
      /\ legalize (PyInt 20) 2000 = inr (c, m)
      /\ int_truediv c 2000 = inr m
      /\ position_mm s' = new_position idle_stage false m
      /\ legalize (PyFloat m) 2000 = inr (c, m)).
Proof.
  destruct (@legalization_idempotent MockPort MockTransport) as (A & B & C).
  split; [|split].
  - apply (A 12345). vm_compute. discriminate.
  - eexists. eexists.
    assert (H : legalize (PyFloat (literal (314159 # 100000))) 2000 = inr (_, _))
      by (vm_compute; reflexivity).
    split; [exact H|]. apply (B _ _ _ H). vm_compute. discriminate.
  - eexists.
    assert (H : move_mm (PyInt 20) false true idle_stage = Ok tt _)
      by (vm_compute; reflexivity).
    assert (HE : EncCnt_per_mm idle_stage = 2000) by (vm_compute; reflexivity).
    assert (HO : Z.abs (offset_counts idle_stage) <= 2 ^ 39)
      by (vm_compute; discriminate).
    destruct (C (PyInt 20) false true idle_stage _ HE HO H) as (c & m & H1).
    exists c, m. exact (conj H H1).
Defined.

(** C4, where the code departs from the claim.  A position reply whose four
    count bytes are [ff ff ff ff] is the count -1 to a signed reader; the
    query reads it as 4294967295 and returns a position beyond 2147483 mm. *)
Theorem position_counts_read_unsigned :
  from_bytes_little_signed [xff; xff; xff; xff] = -1
  /\ from_bytes_little [xff; xff; xff; xff] = 4294967295
  /\ exists q v s',
      get_position_mm
        (stage (fresh (position_reply [xff; xff; xff; xff])) (Finite 0%Q) false)
      = Ok v s'
      /\ int_truediv 4294967295 2000 = inr q
      /\ v = fsub q (literal (5 # 100))
      /\ position_mm s' = Some v
      /\ fle (Finite 2147483%Q) v = true.
Proof.
  split; [vm_compute; reflexivity|].
  split; [vm_compute; reflexivity|].
  eexists. eexists. eexists.
  split; [vm_compute; reflexivity|].
  split; [vm_compute; reflexivity|].
  repeat split; vm_compute; reflexivity.
Qed.

End Scenarios.

(* ================================================================== *)
(** ** How the calls compose *)

Section Composition.

Context {P : Type} {T : Transport P}.
Implicit Types s : Controller P.

(** The attributes the methods read ([ch_id_bytes], [position_mm],
    [_moving]) have all been assigned, as they are once [__init__] has
    returned. *)
Definition constructed (s : Controller P) : bool :=
  match ch_id_bytes s, position_mm s, _moving s with
  | Some _, Some _, Some _ => true
  | _, _, _ => false
  end.

(** A call that leaves the object constructed, and that does not fail for
    want of an attribute. *)
Definition keeps_constructed {A} (o : outcome P A) : Prop :=
  match o with
  | Ok _ s' => constructed s' = true
  | Raise e s' => constructed s' = true /\ e <> AttributeError
  end.

(** The exceptions arithmetic on the target can raise. *)
Definition arithmetic_error (e : exn) : bool :=
  match e with
  | OverflowError | ValueError | ZeroDivisionError => true
  | _ => false
  end.

Lemma float_of_int_error n e : float_of_int n = inl e -> e = OverflowError.
Proof.
  unfold float_of_int. destruct (rne53 _); intros H; inversion H; reflexivity.
Qed.

Lemma int_truediv_error a b e :
  int_truediv a b = inl e -> arithmetic_error e = true.
Proof.
  unfold int_truediv. destruct (b =? 0); [intros H; inversion H; reflexivity|].
  destruct (rne53 _); intros H; inversion H; reflexivity.
Qed.

Lemma legalize_error x per_mm e :
  legalize x per_mm = inl e -> arithmetic_error e = true.
Proof.
  unfold legalize, mul_int.
  destruct x as [n|f].
  - cbn. destruct (int_truediv _ _) eqn:E; intros H; inversion H; subst.
    apply (int_truediv_error _ _ _ E).
  - destruct (float_of_int per_mm) eqn:F.
    + intros H. inversion H; subst.
      rewrite (float_of_int_error _ _ F). reflexivity.
    + destruct (fmul f p) as [q| |]; cbn.
      * destruct (int_truediv _ _) eqn:E; intros H; inversion H; subst.
        apply (int_truediv_error _ _ _ E).
      * intros H; inversion H; reflexivity.
      * intros H; inversion H; reflexivity.
Qed.

Lemma to_bytes_error n z e :
  to_bytes_little_signed n z = inl e -> e = OverflowError.
Proof.
  unfold to_bytes_little_signed. destruct (_ && _); intros H; inversion H.
  reflexivity.
Qed.

(** A blocking move is the non-blocking move followed by [_finish_move]. *)
Theorem blocking_move_is_move_then_finish x rel s :
  move_mm x rel true s = bind (move_mm x rel false) (fun _ => _finish_move) s.
Proof.
  unfold bind. rewrite !move_mm_eq.
  destruct (_moving s) as [mv|]; [|reflexivity].
  generalize (drained s). clear s mv. intros s.
  unfold move_idle.
  destruct (legalize x (EncCnt_per_mm s)) as [e|[c m]]; [reflexivity|].
  destruct (new_position s rel m) as [position|]; [|reflexivity].
  destruct (to_bytes_little_signed 4 _) as [e|p]; [reflexivity|].
  destruct (ch_id_bytes s) as [ch|]; [|reflexivity].
  destruct (float_of_int (position_min_mm s)) as [e|lo]; [reflexivity|].
  destruct (fge _ _); [|reflexivity].
  destruct (float_of_int (position_max_mm s)) as [e|hi]; [reflexivity|].
  destruct (fle _ _); [|reflexivity].
  cbv zeta. destruct (Nat.eqb _ 0); [|reflexivity].
  rewrite _finish_move_moving by reflexivity.
  reflexivity.
Qed.

(** A target that is not a finite number is refused by the rounding, after a
    pending move was resolved and before the position is touched: NaN with
    [ValueError], an infinity with [OverflowError]. *)
Theorem move_to_non_finite_target rel b s g :
  _moving s <> None ->
  float_of_int (EncCnt_per_mm s) = inr (Finite g) ->
  Qeq_bool g 0 = false ->
  move_mm (PyFloat NaN) rel b s = Raise ValueError (drained s)
  /\ (forall negative,
        move_mm (PyFloat (Infinity negative)) rel b s
        = Raise OverflowError (drained s)).
Proof.
  intros Hm Hg Hz.
  assert (Hk : EncCnt_per_mm (drained s) = EncCnt_per_mm s).
  { unfold drained. destruct (_moving s) as [[|]|]; reflexivity. }
  split; [|intros negative]; rewrite move_mm_eq;
    (destruct (_moving s); [|congruence]);
    unfold move_idle, legalize, mul_int; rewrite Hk, Hg; cbn [fmul].
  - reflexivity.
  - rewrite Hz. reflexivity.
Qed.

Lemma arithmetic_error_attr e : arithmetic_error e = true -> e <> AttributeError.
Proof. destruct e; cbn; congruence. Qed.

Lemma constructed_set_port p s : constructed (set_port p s) = constructed s.
Proof. reflexivity. Qed.

Lemma constructed_set_enable v s : constructed (set_enable v s) = constructed s.
Proof. reflexivity. Qed.

Lemma constructed_set_info m t sn fw hw s :
  constructed (set_info m t sn fw hw s) = constructed s.
Proof. reflexivity. Qed.

Lemma constructed_set_moving v s :
  constructed s = true -> constructed (set_moving v s) = true.
Proof.
  unfold constructed. cbn.
  destruct (ch_id_bytes s), (position_mm s), (_moving s); congruence.
Qed.

Lemma constructed_set_position_mm v s :
  constructed s = true -> constructed (set_position_mm v s) = true.
Proof.
  unfold constructed. cbn.
  destruct (ch_id_bytes s), (position_mm s), (_moving s); congruence.
Qed.

Lemma constructed_set_ch_id_bytes v s :
  constructed s = true -> constructed (set_ch_id_bytes v s) = true.
Proof.
  unfold constructed. cbn.
  destruct (ch_id_bytes s), (position_mm s), (_moving s); congruence.
Qed.

Lemma constructed_drained s : constructed s = true -> constructed (drained s) = true.
Proof.
  intros H. unfold drained. destruct (_moving s) as [[|]|]; try exact H.
  apply constructed_set_moving. rewrite constructed_set_port. exact H.
Qed.

Lemma move_idle_keeps x rel b s :
  constructed s = true -> keeps_constructed (move_idle x rel b s).
Proof.
  intros H. unfold move_idle.
  destruct (legalize x (EncCnt_per_mm s)) as [e|[c m]] eqn:El.
  { split; [exact H|]. apply arithmetic_error_attr, (legalize_error _ _ _ El). }
  assert (Hn : exists position, new_position s rel m = Some position).
  { unfold new_position, constructed in *. destruct rel; [|eauto].
    destruct (ch_id_bytes s); [|discriminate].
    destruct (position_mm s); [eauto|discriminate]. }
  destruct Hn as [position ->].
  pose proof (constructed_set_position_mm position s H) as H1.
  destruct (to_bytes_little_signed 4 _) as [e|p] eqn:Eb.
  { split; [exact H1|]. rewrite (to_bytes_error _ _ _ Eb). discriminate. }
  destruct (ch_id_bytes s) as [ch|] eqn:Ec.
  2:{ unfold constructed in H. rewrite Ec in H. discriminate. }
  destruct (float_of_int (position_min_mm s)) as [e|lo] eqn:Elo.
  { split; [exact H1|]. rewrite (float_of_int_error _ _ Elo). discriminate. }
  destruct (fge _ _); [|split; [exact H1|discriminate]].
  destruct (float_of_int (position_max_mm s)) as [e|hi] eqn:Ehi.
  { split; [exact H1|]. rewrite (float_of_int_error _ _ Ehi). discriminate. }
  destruct (fle _ _); [|split; [exact H1|discriminate]].
  cbv zeta. destruct (Nat.eqb _ 0).
  - destruct b; cbn [keeps_constructed].
    + apply constructed_set_moving. rewrite constructed_set_port.
      apply constructed_set_moving. rewrite constructed_set_port. exact H1.
    + apply constructed_set_moving. rewrite constructed_set_port. exact H1.
  - split; [|discriminate]. rewrite constructed_set_port. exact H1.
Qed.

(** On a constructed object no method fails for want of an attribute, and
    every method leaves the object constructed, whether it returns or
    raises. *)
Theorem constructed_is_kept s :
  constructed s = true ->
  (forall x rel b, keeps_constructed (move_mm x rel b s))
  /\ keeps_constructed (_finish_move s)
  /\ keeps_constructed (get_position_mm s)
  /\ keeps_constructed (identify s)
  /\ keeps_constructed (_home s)
  /\ keeps_constructed (_get_enable s)
  /\ (forall flag, keeps_constructed (_set_enable flag s))
  /\ keeps_constructed (_get_info s).
Proof.
  intros H.
  assert (Hmv : exists mv, _moving s = Some mv).
  { unfold constructed in H.
    destruct (ch_id_bytes s), (position_mm s), (_moving s); try discriminate.
    eauto. }
  destruct Hmv as [mv Hmv].
  assert (Ge : forall s0, constructed s0 = true -> keeps_constructed (_get_enable s0)).
  { intros s0 H0. rewrite _get_enable_eq. cbv zeta.
    destruct (Nat.eqb _ 0).
    - destruct (index _ 3) as [e|status] eqn:Ei.
      + split; [rewrite constructed_set_port; exact H0|].
        unfold index in Ei. destruct (nth_error _ 3); inversion Ei. discriminate.
      + destruct (status =? 1); [exact H0|].
        destruct (status =? 2); [exact H0|].
        split; [exact H0|discriminate].
    - split; [exact H0|discriminate]. }
  repeat split.
  - intros x rel b. rewrite move_mm_eq, Hmv.
    apply move_idle_keeps, constructed_drained, H.
  - destruct mv.
    + rewrite (_finish_move_moving s Hmv). apply constructed_drained, H.
    + rewrite (_finish_move_idle s Hmv). exact H.
  - rewrite get_position_mm_eq. cbv zeta.
    destruct (Nat.eqb _ 0); [|split; [exact H|discriminate]].
    destruct (int_truediv _ _) as [e|q] eqn:Ed.
    + split.
      * apply constructed_set_ch_id_bytes. exact H.
      * apply arithmetic_error_attr, (int_truediv_error _ _ _ Ed).
    + apply constructed_set_position_mm, constructed_set_ch_id_bytes. exact H.
  - unfold identify. rewrite _send_None. cbv zeta.
    destruct (Nat.eqb _ 0); [exact H|split; [exact H|discriminate]].
  - rewrite _home_eq. cbv zeta.
    destruct (Nat.eqb _ 0); [exact H|split; [exact H|discriminate]].
  - apply Ge, H.
  - intros flag. rewrite _set_enable_eq. cbv zeta.
    destruct (Nat.eqb _ 0); [|split; [exact H|discriminate]].
    pose proof (Ge (set_port (port_write (cmd_set_enable flag) (port s)) s) H) as K.
    destruct (_get_enable _) as [confirmed s1|e s1]; [|exact K].
    destruct (Bool.eqb confirmed flag); [exact K|split; [exact K|discriminate]].
  - rewrite _get_info_eq. cbv zeta.
    destruct (Nat.eqb _ 0); [|split; [exact H|discriminate]].
    destruct (decode_ascii _) as [e|m] eqn:Ed.
    + split; [exact H|]. unfold decode_ascii in Ed.
      destruct (forallb _ _); inversion Ed. discriminate.
    + exact H.
Qed.

End Composition.

(* ================================================================== *)
(** ** Count bytes, there and back *)

Section CountBytes.

Lemma byte_to_Z_range b : 0 <= byte_to_Z b < 256.
Proof.
  unfold byte_to_Z. pose proof (Byte.to_N_bounded b). lia.
Qed.

Lemma byte_to_of_Z z : byte_to_Z (byte_of_Z z) = z mod 256.
Proof.
  unfold byte_to_Z, byte_of_Z.
  pose proof (Z.mod_pos_bound z 256 eq_refl) as Hm.
  destruct (Byte.of_N (Z.to_N (z mod 256))) as [b|] eqn:E.
  - apply Byte.to_of_N in E. rewrite E. lia.
  - apply Byte.of_N_None_iff in E. lia.
Qed.

Lemma from_bytes_little_range bs :
  0 <= from_bytes_little bs < 256 ^ Z.of_nat (List.length bs).
Proof.
  induction bs as [|b rest IH].
  - cbn. lia.
  - cbn [from_bytes_little List.length]. rewrite Nat2Z.inj_succ, Z.pow_succ_r by lia.
    pose proof (byte_to_Z_range b) as Hb.
    set (X := 256 ^ Z.of_nat (List.length rest)) in *. clearbody X. lia.
Qed.

(** Reading back the [k] low bytes of [n] gives [n] modulo [256^k]. *)
Lemma from_bytes_little_digits k n :
  from_bytes_little (little_digits k n) = n mod 256 ^ Z.of_nat k.
Proof.
  revert n. induction k as [|k IH]; intros n.
  - cbn. rewrite Z.mod_1_r. reflexivity.
  - cbn [little_digits from_bytes_little]. rewrite IH, byte_to_of_Z.
    rewrite Nat2Z.inj_succ, Z.pow_succ_r by lia.
    assert (Hk : 0 < 256 ^ Z.of_nat k) by (apply Z.pow_pos_nonneg; lia).
    rewrite Z.rem_mul_r by lia. reflexivity.
Qed.

(** The four count bytes [move_mm] writes, read the way [get_position_mm]
    reads the count of a reply, give the count back when it is not negative,
    and the count plus [2^32] when it is negative; read as a signed number
    they always give the count back. *)
Theorem count_bytes_round_trip n p :
  to_bytes_little_signed 4 n = inr p ->
  from_bytes_little p = (if n <? 0 then n + 2 ^ 32 else n)
  /\ from_bytes_little_signed p = n.
Proof.
  intros H.
  assert (Hr : - 2 ^ 31 <= n < 2 ^ 31).
  { unfold to_bytes_little_signed in H.
    change (2 ^ (8 * Z.of_nat 4 - 1)) with (2 ^ 31) in H.
    destruct (- 2 ^ 31 <=? n) eqn:A; [|discriminate].
    destruct (n <? 2 ^ 31) eqn:B; [|discriminate]. lia. }
  assert (Hp : p = little_digits 4 n).
  { unfold to_bytes_little_signed in H. destruct (_ && _); inversion H.
    reflexivity. }
  assert (Hu : from_bytes_little p = (if n <? 0 then n + 2 ^ 32 else n)).
  { rewrite Hp, from_bytes_little_digits.
    change (256 ^ Z.of_nat 4) with (2 ^ 32).
    change (2 ^ 31) with 2147483648 in Hr. change (2 ^ 32) with 4294967296.
    destruct (n <? 0) eqn:Neg.
    - apply Z.ltb_lt in Neg.
      rewrite <- (Z.mod_add n 1 4294967296) by lia.
      apply Z.mod_small. lia.
    - apply Z.ltb_ge in Neg. apply Z.mod_small. lia. }
  split; [exact Hu|].
  unfold from_bytes_little_signed. rewrite Hu.
  rewrite Hp, little_digits_length.
  change (2 ^ (8 * Z.of_nat 4)) with 4294967296.
  change (2 ^ 31) with 2147483648 in Hr. change (2 ^ 32) with 4294967296.
  destruct (n <? 0) eqn:Neg.
  - apply Z.ltb_lt in Neg.
    destruct (2 * (n + 4294967296) <? 4294967296) eqn:C; [|lia].
    apply Z.ltb_lt in C. lia.
  - apply Z.ltb_ge in Neg.
    destruct (2 * n <? 4294967296) eqn:C; [reflexivity|].
    apply Z.ltb_ge in C. lia.
Qed.

(** The counts 40100 and -100, as absolute moves to 20 mm and to -0.1 mm
    put them on the wire. *)
Lemma count_bytes_round_trip_witness :
  (from_bytes_little [xa4; x9c; x00; x00] = 40100
   /\ from_bytes_little_signed [xa4; x9c; x00; x00] = 40100)
  /\ (from_bytes_little [x9c; xff; xff; xff] = -100 + 2 ^ 32
      /\ from_bytes_little_signed [x9c; xff; xff; xff] = -100).
Proof.
  split.
  - apply (count_bytes_round_trip 40100). vm_compute. reflexivity.
  - apply (count_bytes_round_trip (-100)). vm_compute. reflexivity.
Defined.

End CountBytes.

(* ================================================================== *)
(** ** What the exchanges write and read *)

Section Exchanges.

Context {P : Type} {T : Transport P}.
Implicit Types s : Controller P.

(** The state a call ends in, returned or raised. *)
Definition final {A} (o : outcome P A) : Controller P :=
  match o with
  | Ok _ s' => s'
  | Raise _ s' => s'
  end.

Lemma slice_length_le a b (bs : bytes) : (List.length (slice a b bs) <= b - a)%nat.
Proof. unfold slice. apply firstn_le_length. Qed.

Lemma from_bytes_little_slice a b bs :
  0 <= from_bytes_little (slice a b bs) < 256 ^ Z.of_nat (b - a).
Proof.
  pose proof (from_bytes_little_range (slice a b bs)) as H.
  pose proof (slice_length_le a b bs) as L.
  assert (256 ^ Z.of_nat (List.length (slice a b bs)) <= 256 ^ Z.of_nat (b - a))
    by (apply Z.pow_le_mono_r; lia).
  lia.
Qed.

(** Each method that makes one exchange has written exactly its own six
    command bytes when it ends, whether it returns or raises; [_set_enable]
    has written its command, and the enable query after it unless bytes were
    waiting; [move_mm] has written one move command or nothing. *)
Theorem exchanges_write_their_command s :
  port_sent (port (final (identify s))) = port_sent (port s) ++ cmd_identify
  /\ port_sent (port (final (_home s))) = port_sent (port s) ++ cmd_home
  /\ port_sent (port (final (_get_info s))) = port_sent (port s) ++ cmd_get_info
  /\ port_sent (port (final (_get_enable s))) = port_sent (port s) ++ cmd_get_enable
  /\ port_sent (port (final (get_position_mm s)))
     = port_sent (port s) ++ cmd_get_position
  /\ (forall flag,
        port_sent (port (final (_set_enable flag s)))
        = port_sent (port s) ++ cmd_set_enable flag
          ++ (if Nat.eqb (port_inWaiting (port_write (cmd_set_enable flag) (port s))) 0
              then cmd_get_enable else []))
  /\ (forall x rel b,
        port_sent (port (final (move_mm x rel b s))) = port_sent (port s)
        \/ exists ch p,
            ch_id_bytes s = Some ch
            /\ port_sent (port (final (move_mm x rel b s)))
               = port_sent (port s) ++ move_cmd rel ch p).
Proof.
  assert (Ge : forall s0,
             port_sent (port (final (_get_enable s0)))
             = port_sent (port s0) ++ cmd_get_enable).
  { intros s0. rewrite _get_enable_eq. cbv zeta.
    destruct (Nat.eqb _ 0).
    - destruct (index _ 3) as [e|status]; cbn [final port set_port].
      + rewrite sent_read. apply sent_write.
      + destruct (status =? 1); [cbn; rewrite sent_read; apply sent_write|].
        destruct (status =? 2); cbn; rewrite sent_read; apply sent_write.
    - cbn. rewrite sent_read. apply sent_write. }
  repeat split.
  - unfold identify. rewrite _send_None. cbv zeta.
    destruct (Nat.eqb _ 0); cbn; apply sent_write.
  - rewrite _home_eq. cbv zeta.
    destruct (Nat.eqb _ 0); cbn; rewrite sent_read; apply sent_write.
  - rewrite _get_info_eq. cbv zeta.
    destruct (Nat.eqb _ 0); [|cbn; rewrite sent_read; apply sent_write].
    destruct (decode_ascii _); cbn; rewrite sent_read; apply sent_write.
  - apply Ge.
  - rewrite get_position_mm_eq. cbv zeta.
    destruct (Nat.eqb _ 0); [|cbn; rewrite sent_read; apply sent_write].
    destruct (int_truediv _ _); cbn; rewrite sent_read; apply sent_write.
  - intros flag. rewrite _set_enable_eq. cbv zeta. cbn [port set_port].
    destruct (Nat.eqb _ 0).
    + pose proof (Ge (set_port (port_write (cmd_set_enable flag) (port s)) s)) as K.
      cbn [port set_port] in K. rewrite sent_write in K.
      rewrite <- app_assoc in K.
      destruct (_get_enable _) as [confirmed s1|e s1]; [|exact K].
      destruct (Bool.eqb confirmed flag); exact K.
    + cbn. rewrite sent_write, app_nil_r. reflexivity.
  - intros x rel b. rewrite move_mm_eq.
    destruct (_moving s) as [mv|] eqn:Hm; [|left; reflexivity].
    assert (Hc : ch_id_bytes (drained s) = ch_id_bytes s).
    { unfold drained. rewrite Hm. destruct mv; reflexivity. }
    destruct (move_idle x rel b (drained s)) as [[] s'|e s'] eqn:E.
    + right. apply move_idle_Ok in E.
      destruct E as (c & m & position & p & ch & _ & _ & _ & Hch & _ & _ & ->).
      exists ch, p. split; [rewrite <- Hc; exact Hch|].
      cbn [final]. rewrite sent_after_move, sent_drained. reflexivity.
    + cbn [final].
      pose proof E as E'. unfold move_idle in E'.
      destruct (legalize x (EncCnt_per_mm (drained s))) as [e0|[c m]];
        [inversion E'; left; apply sent_drained|].
      destruct (new_position (drained s) rel m) as [position|];
        [|inversion E'; left; apply sent_drained].
      destruct (to_bytes_little_signed 4 _) as [e0|p];
        [inversion E'; left; cbn; apply sent_drained|].
      destruct (ch_id_bytes (drained s)) as [ch|] eqn:Ech;
        [|inversion E'; left; cbn; apply sent_drained].
      destruct (float_of_int (position_min_mm (drained s))) as [e0|lo];
        [inversion E'; left; cbn; apply sent_drained|].
      destruct (fge _ _); [|inversion E'; left; cbn; apply sent_drained].
      destruct (float_of_int (position_max_mm (drained s))) as [e0|hi];
        [inversion E'; left; cbn; apply sent_drained|].
      destruct (fle _ _); [|inversion E'; left; cbn; apply sent_drained].
      cbv zeta in E'. destruct (Nat.eqb _ 0).
      * destruct b; discriminate.
      * inversion E'. right. exists ch, p. split; [symmetry; exact Hc|].
        cbn. rewrite sent_write, sent_drained. reflexivity.
Qed.

(** [_get_info] on success returns the reply and assigns the five identity
    attributes from its fields, each little-endian number within the range
    of its width, and touches nothing else but the port; a model field with
    a byte of 128 or more raises [UnicodeDecodeError] with no attribute
    assigned. *)
Theorem get_info_decodes s :
  let rp := port_read 90 (port_write cmd_get_info (port s)) in
  (forall r s',
      _get_info s = Ok r s' ->
      r = Some (fst rp)
      /\ model_number s' = Some (string_of_list_byte (slice 10 18 (fst rp)))
      /\ (exists t, type s' = Some t
                    /\ t = from_bytes_little (slice 18 20 (fst rp))
                    /\ 0 <= t < 2 ^ 16)
      /\ (exists n, serial_number s' = Some n
                    /\ n = from_bytes_little (slice 6 10 (fst rp))
                    /\ 0 <= n < 2 ^ 32)
      /\ (exists v, firmware_v s' = Some v
                    /\ v = from_bytes_little (slice 20 24 (fst rp))
                    /\ 0 <= v < 2 ^ 32)
      /\ (exists h, hardware_v s' = Some h
                    /\ h = from_bytes_little (slice 84 86 (fst rp))
                    /\ 0 <= h < 2 ^ 16)
      /\ enable s' = enable s /\ ch_id_bytes s' = ch_id_bytes s
      /\ position_mm s' = position_mm s /\ _moving s' = _moving s
      /\ port s' = snd rp)
  /\ (port_inWaiting (snd rp) = 0%nat ->
      forallb (fun b => byte_to_Z b <? 128) (slice 10 18 (fst rp)) = false ->
      _get_info s = Raise UnicodeDecodeError (set_port (snd rp) s)).
Proof.
  intros rp. split.
  - intros r s'. rewrite _get_info_eq. cbv zeta. fold rp.
    destruct (Nat.eqb _ 0); [|discriminate].
    unfold decode_ascii. destruct (forallb _ _); [|discriminate].
    intros H. inversion H. subst r s'. clear H.
    split; [reflexivity|]. split; [reflexivity|].
    split; [eexists; split; [reflexivity|split; [reflexivity|]];
            apply (from_bytes_little_slice 18 20)|].
    split; [eexists; split; [reflexivity|split; [reflexivity|]];
            apply (from_bytes_little_slice 6 10)|].
    split; [eexists; split; [reflexivity|split; [reflexivity|]];
            apply (from_bytes_little_slice 20 24)|].
    split; [eexists; split; [reflexivity|split; [reflexivity|]];
            apply (from_bytes_little_slice 84 86)|].
    repeat split.
  - intros Hw Hb. rewrite _get_info_eq. cbv zeta. fold rp.
    rewrite Hw. cbn [Nat.eqb]. unfold decode_ascii. rewrite Hb. reflexivity.
Qed.

End Exchanges.

(* ================================================================== *)
(** ** A device that does not answer *)

Section Silence.

Context {P : Type} {T : Transport P}.
Implicit Types s : Controller P.

(** When the identity request is answered by nothing, construction raises
    [AssertionError] at the model check, having written that request only.
    [_home] never looks at its reply: whatever was read, nothing at all
    included, it returns as if the stage had homed. *)
Theorem silent_device :
  (forall p,
      fst (port_read 90 (port_write cmd_get_info p)) = [] ->
      port_inWaiting (snd (port_read 90 (port_write cmd_get_info p))) = 0%nat ->
      exists s',
        __init__ (Some p) = Started (Raise AssertionError s')
        /\ model_number s' = Some EmptyString
        /\ port_sent (port s') = port_sent p ++ cmd_get_info)
  /\ (forall s,
      port_inWaiting (snd (port_read 6 (port_write cmd_home (port s)))) = 0%nat ->
      _home s = Ok tt (set_port (snd (port_read 6 (port_write cmd_home (port s)))) s)).
Proof.
  split.
  - intros p Hr Hw. unfold __init__, startup.
    unfold bind at 1. rewrite _get_info_eq. cbv zeta.
    change (port (blank p)) with p. rewrite Hw, Hr. cbn [Nat.eqb fst].
    change (decode_ascii (slice 10 18 [])) with (@inr exn string EmptyString).
    cbv beta iota.
    unfold bind at 1, attr at 1. cbn [model_number set_info].
    unfold bind at 1.
    change (String.eqb EmptyString supported_model) with false.
    cbn [assert raise].
    eexists. split; [reflexivity|]. split; [reflexivity|].
    cbn [port set_port set_info]. rewrite sent_read, sent_write. reflexivity.
  - intros s Hw. rewrite _home_eq. cbv zeta. rewrite Hw. reflexivity.
Qed.

End Silence.

(* ================================================================== *)
(** ** The whole travel, and the position read back *)

Section TravelRounding.

Local Open Scope Q_scope.

(** Rounding to binary64 below the overflow range, the subnormal range and
    zero included: the error is at most half an ulp, relative or absolute. *)
Lemma rne53_error (q : Q) :
  Qabs q <= two_pow 1000 ->
  exists r, rne53 q = Finite (Qred r)
            /\ Qabs (r - q) <= Qabs q * two_pow (-53) + two_pow (-1075).
Proof.
  intros Hhi.
  pose proof (two_pow_pos (-53)) as H53.
  pose proof (two_pow_pos (-1075)) as H1075.
  pose proof (Qabs_nonneg q) as Hq0.
  unfold rne53.
  destruct (Qeq_bool q 0) eqn:E0.
  { apply Qeq_bool_eq in E0. exists 0. split; [reflexivity|].
    setoid_replace (0 - q) with 0 by (rewrite E0; ring).
    change (Qabs 0) with 0. nra. }
  assert (Hpos : 0 < Qabs q).
  { destruct (Qlt_le_dec 0 (Qabs q)) as [L|G]; [exact L|].
    exfalso. assert (Z0 : Qabs q == 0) by lra.
    assert (Zq : q == 0).
    { apply Qabs_Qle_condition in G. lra. }
    apply Qeq_eq_bool in Zq. congruence. }
  set (e := Z.max (ilog2 (Qabs q) - 52) (-1074)).
  set (t := q / two_pow e).
  pose proof (two_pow_pos e) as He.
  pose proof (round_half_even_near t) as Hz.
  set (z := inject_Z (round_half_even t)) in *.
  assert (Ht : t * two_pow e == q).
  { unfold t. field. lra. }
  assert (Herr : Qabs (z * two_pow e - q) <= two_pow e * (1 # 2)).
  { assert (Ed : z * two_pow e - q == (z - t) * two_pow e) by (rewrite <- Ht; ring).
    rewrite Ed, Qabs_Qmult, (Qabs_pos (two_pow e)) by lra.
    nra. }
  assert (Hulp : two_pow e * (1 # 2) <= Qabs q * two_pow (-53) + two_pow (-1075)).
  { pose proof (ilog2_le (Qabs q) Hpos) as HL.
    unfold e. destruct (Z.max_spec (ilog2 (Qabs q) - 52) (-1074)) as [[_ ->]|[_ ->]].
    - assert (Ec : two_pow (-1074) * (1 # 2) == two_pow (-1075))
        by (vm_compute; reflexivity).
      rewrite Ec. nra.
    - replace (ilog2 (Qabs q) - 52)%Z with (ilog2 (Qabs q) + -52)%Z by lia.
      rewrite two_pow_add.
      assert (Ec : two_pow (-52) * (1 # 2) == two_pow (-53)) by (vm_compute; reflexivity).
      rewrite <- Qmult_assoc, Ec. nra. }
  exists (z * two_pow e). split.
  - assert (Hno : Qle_bool (two_pow 1024) (Qabs (z * two_pow e)) = false).
    { destruct (Qle_bool _ _) eqn:F; [|reflexivity].
      apply Qle_bool_iff in F. exfalso.
      assert (Tr : Qabs (z * two_pow e) <= Qabs q + Qabs (z * two_pow e - q)).
      { setoid_replace (z * two_pow e) with (q + (z * two_pow e - q)) at 1 by ring.
        apply Qabs_triangle. }
      assert (S53 : two_pow (-53) <= 1) by (vm_compute; discriminate).
      assert (S1075 : two_pow (-1075) <= 1) by (vm_compute; discriminate).
      assert (Big : 2 * two_pow 1000 + 1 < two_pow 1024) by (vm_compute; reflexivity).
      nra. }
    rewrite Hno. reflexivity.
  - lra.
Qed.


(** Rounding a quotient [c / 2000], zero included. *)
Lemma truediv_2000_error (c : Z) :
  (0 <= c <= 1000000)%Z ->
  exists r, int_truediv c 2000 = inr (Finite (Qred r))
            /\ Qabs (r - inject_Z c / 2000) <= 1 # 10000000000000.
Proof.
  intros Hc.
  assert (A : 0 <= inject_Z c <= 1000000).
  { split; [change 0 with (inject_Z 0)|change 1000000 with (inject_Z 1000000)];
      rewrite <- Zle_Qle; lia. }
  assert (Hq : 0 <= inject_Z c / 2000 <= 500).
  { unfold Qdiv. change (/ 2000) with (1 # 2000). split; lra. }
  destruct (rne53_error (inject_Z c / 2000)) as (r & Hr & He).
  { rewrite Qabs_pos by apply Hq.
    apply Qle_trans with 500; [apply Hq | vm_compute; discriminate]. }
  exists r. split.
  - unfold int_truediv. cbn [Z.eqb].
    change (inject_Z 2000) with 2000. rewrite Hr. reflexivity.
  - rewrite (Qabs_pos (inject_Z c / 2000)) in He by apply Hq.
    assert (S53 : two_pow (-53) <= 1 # 9000000000000000) by (vm_compute; discriminate).
    assert (S1075 : two_pow (-1075) <= 1 # 9000000000000000) by (vm_compute; discriminate).
    pose proof (two_pow_pos (-53)). 
    set (a := two_pow (-53)) in *. set (b := two_pow (-1075)) in *.
    set (v := inject_Z c / 2000) in *.
    assert (v * a <= 500 * (1 # 9000000000000000)) by nra.
    lra.
Qed.

(** The value of a finite number a caller passes. *)
Definition number_value (x : pynum) : option Q :=
  match x with
  | PyInt n => Some (inject_Z n)
  | PyFloat (Finite q) => Some q
  | PyFloat _ => None
  end.

(** Legalizing a target within the travel: the count is the nearest to the
    target, and the legalized target is the float of that count. *)
Lemma legalize_in_travel (x : pynum) (q : Q) :
  number_value x = Some q -> 0 <= q <= 100 ->
  exists c m,
    legalize x 2000 = inr (c, Finite m)
    /\ (0 <= c <= 200000)%Z
    /\ Qabs (inject_Z c - q * 2000) <= (1 # 2) + (1 # 10000000000)
    /\ Qabs (m - inject_Z c / 2000) <= 1 # 10000000000000.
Proof.
  intros Hx Hq.
  assert (Hc : exists c, (0 <= c <= 200000)%Z
                 /\ Qabs (inject_Z c - q * 2000) <= (1 # 2) + (1 # 10000000000)
                 /\ forall m, int_truediv c 2000 = inr m ->
                              legalize x 2000 = inr (c, m)).
  { destruct x as [n|[f| |]]; cbn in Hx; try discriminate.
    - inversion Hx; subst q; clear Hx.
      assert (Hn : (0 <= n <= 100)%Z).
      { destruct Hq as [A B]. change 0 with (inject_Z 0) in A.
        change 100 with (inject_Z 100) in B.
        rewrite <- Zle_Qle in A, B. lia. }
      exists (n * 2000)%Z. split; [lia|]. split.
      + rewrite inject_Z_mult. change (inject_Z 2000) with 2000.
        setoid_replace (inject_Z n * 2000 - inject_Z n * 2000) with 0 by ring.
        vm_compute. discriminate.
      + intros m Hm. unfold legalize. cbn [mul_int int_round]. rewrite Hm.
        reflexivity.
    - inversion Hx; subst f; clear Hx.
      assert (Hp : 0 <= q * 2000 <= 200000) by (split; lra).
      destruct (rne53_error (q * 2000)) as (r & Hr & He).
      { rewrite Qabs_pos by apply Hp.
        apply Qle_trans with 200000; [apply Hp | vm_compute; discriminate]. }
      rewrite (Qabs_pos (q * 2000)) in He by apply Hp.
      assert (S53 : two_pow (-53) <= 1 # 9000000000000000) by (vm_compute; discriminate).
      assert (S1075 : two_pow (-1075) <= 1 # 9000000000000000) by (vm_compute; discriminate).
      pose proof (two_pow_pos (-53)).
      set (a := two_pow (-53)) in *. set (b := two_pow (-1075)) in *.
      assert (He' : Qabs (r - q * 2000) <= 1 # 20000000000).
      { assert (q * 2000 * a <= 200000 * (1 # 9000000000000000)) by nra. lra. }
      clearbody a b.
      pose proof (round_half_even_near (Qred r)) as Hn.
      rewrite (Qred_correct r) in Hn at 2.
      set (c := round_half_even (Qred r)) in *.
      assert (Hd : Qabs (inject_Z c - q * 2000) <= (1 # 2) + (1 # 20000000000)).
      { pose proof (Qabs_triangle (inject_Z c - r) (r - q * 2000)) as Tr.
        setoid_replace (inject_Z c - r + (r - q * 2000))
          with (inject_Z c - q * 2000) in Tr by ring.
        lra. }
      exists c. split; [|split].
      + apply Qabs_Qle_condition in Hd.
        assert (L : (-1 < c)%Z).
        { rewrite Zlt_Qlt. change (inject_Z (-1)) with (-1). lra. }
        assert (U : (c < 200001)%Z).
        { rewrite Zlt_Qlt. change (inject_Z 200001) with 200001. lra. }
        lia.
      + lra.
      + intros m Hm. unfold legalize, mul_int. rewrite float_of_int_2000.
        cbn [fmul]. rewrite Hr. cbn [int_round]. fold c. rewrite Hm.
        reflexivity. }
  destruct Hc as (c & Hc & Hd & Hl).
  destruct (truediv_2000_error c) as (r & Hr & He); [lia|].
  exists c, (Qred r). split; [apply Hl, Hr|]. split; [exact Hc|].
  split; [exact Hd|]. rewrite (Qred_correct r). exact He.
Qed.

End TravelRounding.

Section Travel.

Context {P : Type} {T : Transport P}.
Implicit Types s : Controller P.

Local Open Scope Q_scope.

(** The calibration constants have the values [__init__] assigns. *)
Definition calibrated (s : Controller P) : Prop :=
  position_min_mm s = 0%Z
  /\ position_max_mm s = 100%Z
  /\ range_tol_mm s = literal (1 # 10)
  /\ EncCnt_per_mm s = 2000%Z
  /\ offset_mm s = literal (5 # 100)
  /\ offset_counts s = 100%Z.

Lemma blank_calibrated (p : P) : calibrated (blank p).
Proof.
  unfold calibrated. do 5 (split; [reflexivity|]). apply blank_offset_counts.
Qed.

Lemma calibrated_drained s : calibrated s -> calibrated (drained s).
Proof.
  unfold drained. destruct (_moving s) as [[|]|]; intros H; exact H.
Qed.

Lemma lower_limit :
  exists lo, fsub (Finite 0) (literal (1 # 10)) = Finite lo /\ lo <= - (1 # 100).
Proof. eexists. split; [vm_compute; reflexivity|vm_compute; discriminate]. Qed.

Lemma upper_limit :
  exists hi, fadd (Finite 100) (literal (1 # 10)) = Finite hi /\ 100 + (1 # 100) <= hi.
Proof. eexists. split; [vm_compute; reflexivity|vm_compute; discriminate]. Qed.

(** Every target within the travel, an int or a float from 0 to 100 mm, is
    accepted by an absolute [move_mm] on a calibrated object: the count sent
    is the target's nearest count plus the offset of 100, it fits the four
    bytes, the position cached is within a quarter of a micron of the target
    and passes both range assertions, and the call returns unless bytes are
    waiting after the command was written. *)
Theorem travel_is_reachable x q b s ch :
  calibrated s -> _moving s <> None -> ch_id_bytes s = Some ch ->
  number_value x = Some q -> 0 <= q <= 100 ->
  exists c m p,
    (0 <= c <= 200000)%Z
    /\ Qabs (inject_Z c - q * 2000) <= (1 # 2) + (1 # 10000000000)
    /\ Qabs (m - q) <= (1 # 4000) + (1 # 1000000000000)
    /\ to_bytes_little_signed 4 (c + 100) = inr p
    /\ let s0 := drained s in
       let cmd := move_cmd false ch p in
       move_mm x false b s
       = if Nat.eqb (port_inWaiting (port_write cmd (port s0))) 0
         then Ok tt (after_move b cmd (Finite m) s0)
         else Raise AssertionError
                (set_port (port_write cmd (port s0))
                   (set_position_mm (Finite m) s0)).
Proof.
  intros Hcal Hmv Hch Hx Hq.
  destruct (legalize_in_travel x q Hx Hq) as (c & m & Hl & Hc & Hd & Hm).
  assert (Hp : to_bytes_little_signed 4 (c + 100) = inr (little_digits 4 (c + 100))).
  { unfold to_bytes_little_signed.
    change (2 ^ (8 * Z.of_nat 4 - 1))%Z with 2147483648%Z.
    rewrite (proj2 (Z.leb_le _ _)) by lia.
    rewrite (proj2 (Z.ltb_lt _ _)) by lia. reflexivity. }
  assert (Hmq : Qabs (m - q) <= (1 # 4000) + (1 # 1000000000000)).
  { apply Qabs_Qle_condition in Hd. apply Qabs_Qle_condition in Hm.
    apply Qabs_Qle_condition. unfold Qdiv in Hm.
    change (/ 2000) with (1 # 2000) in Hm. split; lra. }
  exists c, m, (little_digits 4 (c + 100)).
  split; [exact Hc|]. split; [exact Hd|]. split; [exact Hmq|].
  split; [exact Hp|]. cbv zeta.
  rewrite move_mm_eq. destruct (_moving s) as [mv|] eqn:Em; [|congruence].
  assert (Hch0 : ch_id_bytes (drained s) = Some ch).
  { unfold drained. rewrite Em. destruct mv; exact Hch. }
  destruct (calibrated_drained s Hcal) as (Hlo & Hhi & Htol & Hper & _ & Hoff).
  generalize dependent (drained s). intros s0 Hch0 Hlo Hhi Htol Hper Hoff.
  unfold move_idle, after_move.
  rewrite Hper, Hl. cbn [new_position wire_counts].
  rewrite Hoff, Hp, Hch0, Hlo, Hhi, Htol.
  change (float_of_int 0) with (@inr exn pyfloat (Finite 0)).
  replace (float_of_int 100) with (@inr exn pyfloat (Finite 100))
    by (vm_compute; reflexivity).
  destruct lower_limit as (lo & -> & Llo).
  destruct upper_limit as (hi & -> & Lhi).
  apply Qabs_Qle_condition in Hmq.
  assert (G : fge (Finite m) (Finite lo) = true).
  { apply Qle_bool_iff. lra. }
  assert (L : fle (Finite m) (Finite hi) = true).
  { apply Qle_bool_iff. lra. }
  rewrite G, L. cbv zeta. cbn [port set_port set_position_mm].
  destruct (Nat.eqb _ 0); [|reflexivity].
  destruct b; reflexivity.
Qed.


Lemma offset_value :
  exists o, literal (5 # 100) = Finite o
            /\ Qabs (o - (1 # 20)) <= 1 # 100000000000000000.
Proof. eexists. split; [vm_compute; reflexivity|vm_compute; discriminate]. Qed.

(** When the device reports the count an absolute move of [c] counts put on
    the wire, [get_position_mm] returns the position of [c] counts: the
    offset in counts that [move_mm] adds and the offset in mm that
    [get_position_mm] takes off cancel, for every count from -100 on. *)
Theorem position_read_back c s :
  calibrated s -> (-100 <= c <= 200000)%Z ->
  let rp := port_read 12 (port_write cmd_get_position (port s)) in
  slice 8 12 (fst rp) = little_digits 4 (c + 100) ->
  port_inWaiting (snd rp) = 0%nat ->
  exists v,
    get_position_mm s
    = Ok (Finite v)
        (set_position_mm (Finite v)
           (set_ch_id_bytes (slice 6 8 (fst rp)) (set_port (snd rp) s)))
    /\ Qabs (v - inject_Z c / 2000) <= 1 # 1000000000000.
Proof.
  intros (_ & _ & _ & Hper & Hoff & _) Hc rp Hs Hw.
  rewrite get_position_mm_eq. cbv zeta. fold rp.
  rewrite Hw, Hs, Hper, Hoff. cbn [Nat.eqb].
  rewrite from_bytes_little_digits.
  change (256 ^ Z.of_nat 4)%Z with 4294967296%Z.
  rewrite Z.mod_small by lia.
  destruct (truediv_2000_error (c + 100)) as (r1 & -> & H1); [lia|].
  destruct offset_value as (o & -> & Ho).
  unfold fsub, fopp, fadd.
  pose proof (Qred_correct r1) as E1. pose proof (Qred_correct (- o)) as Eo.
  rewrite inject_Z_plus in H1. change (inject_Z 100) with 100 in H1.
  assert (A : 0 <= inject_Z (c + 100) <= 200100).
  { split; [change 0 with (inject_Z 0)|change 200100 with (inject_Z 200100)];
      rewrite <- Zle_Qle; lia. }
  rewrite inject_Z_plus in A. change (inject_Z 100) with 100 in A.
  set (C := inject_Z c) in *.
  unfold Qdiv in *. change (/ 2000) with (1 # 2000) in *.
  apply Qabs_Qle_condition in H1. apply Qabs_Qle_condition in Ho.
  set (x := Qred r1) in *. set (y := Qred (- o)) in *.
  assert (B : - (1) <= x + y <= 200).
  { split; lra. }
  destruct (rne53_error (x + y)) as (r2 & -> & H2).
  { apply Qle_trans with 200; [|vm_compute; discriminate].
    apply Qabs_Qle_condition. split; lra. }
  assert (Ab : Qabs (x + y) <= 200) by (apply Qabs_Qle_condition; split; lra).
  assert (S53 : two_pow (-53) <= 1 # 9000000000000000) by (vm_compute; discriminate).
  assert (S1075 : two_pow (-1075) <= 1 # 9000000000000000) by (vm_compute; discriminate).
  pose proof (two_pow_pos (-53)). pose proof (Qabs_nonneg (x + y)).
  set (a := two_pow (-53)) in *. set (b := two_pow (-1075)) in *.
  set (w := Qabs (x + y)) in *.
  assert (H3 : w * a <= 200 * (1 # 9000000000000000)) by nra.
  assert (H4 : Qabs (r2 - (x + y)) <= 1 # 10000000000000) by lra.
  apply Qabs_Qle_condition in H4.
  exists (Qred r2). split; [reflexivity|].
  rewrite (Qred_correct r2). apply Qabs_Qle_condition. split; lra.
Qed.

End Travel.

(* ================================================================== *)
(** ** Targets far out of range *)

Section FarTargets.

Context {P : Type} {T : Transport P}.
Implicit Types s : Controller P.

(** A whole-millimetre target whose count does not fit four bytes raises
    [OverflowError], never the [AssertionError] of the range check: the
    count is converted to bytes before the range is asserted.  Nothing is
    written. *)
Theorem far_target_overflows n rel b s :
  calibrated s -> _moving s <> None ->
  (rel = true -> position_mm s <> None) ->
  n <= -1073742 \/ 1073742 <= n ->
  exists s',
    move_mm (PyInt n) rel b s = Raise OverflowError s'
    /\ port_sent (port s') = port_sent (port s).
Proof.
  intros Hcal Hmv Hpos Hn.
  rewrite move_mm_eq. destruct (_moving s) as [mv|] eqn:Em; [|congruence].
  assert (Hp0 : rel = true -> position_mm (drained s) <> None).
  { intros R. unfold drained. rewrite Em. destruct mv; exact (Hpos R). }
  pose proof (sent_drained s) as Hs.
  destruct (calibrated_drained s Hcal) as (_ & _ & _ & Hper & _ & Hoff).
  generalize dependent (drained s). intros s0 Hp0 Hs Hper Hoff.
  unfold move_idle. rewrite Hper.
  unfold legalize. cbn [mul_int int_round].
  unfold int_truediv. cbn [Z.eqb].
  assert (Hb : to_bytes_little_signed 4 (wire_counts s0 rel (n * 2000))
               = inl OverflowError).
  { unfold to_bytes_little_signed, wire_counts. rewrite Hoff.
    change (2 ^ (8 * Z.of_nat 4 - 1)) with 2147483648.
    destruct rel, Hn as [Hn|Hn];
      first [ rewrite (proj2 (Z.leb_gt _ _)) by lia; reflexivity
            | rewrite (proj2 (Z.ltb_ge _ _)) by lia; rewrite andb_false_r;
              reflexivity ]. }
  assert (Hnp : forall m, exists position, new_position s0 rel m = Some position).
  { intros m. unfold new_position. destruct rel; [|eauto].
    destruct (position_mm s0); [eauto|]. exfalso. apply Hp0; reflexivity. }
  destruct (rne53 _) as [m|neg|].
  - destruct (Hnp (Finite m)) as [position ->].
    rewrite Hb. eexists. split; [reflexivity|]. exact Hs.
  - eexists. split; [reflexivity|]. exact Hs.
  - destruct (Hnp NaN) as [position ->].
    rewrite Hb. eexists. split; [reflexivity|]. exact Hs.
Qed.

End FarTargets.

(* ================================================================== *)
(** ** The further properties at work on a scripted port *)

Section MoreScenarios.

(** An idle stage, and one with a move pending, both kept constructed by a
    refused move. *)
Lemma constructed_is_kept_witness :
  keeps_constructed (move_mm (PyInt 200) true true moving_stage)
  /\ keeps_constructed (get_position_mm idle_stage)
  /\ keeps_constructed (_finish_move moving_stage).
Proof.
  assert (Hm : constructed moving_stage = true) by (vm_compute; reflexivity).
  assert (Hi : constructed idle_stage = true) by (vm_compute; reflexivity).
  destruct (constructed_is_kept moving_stage Hm) as (A & B & _).
  destruct (constructed_is_kept idle_stage Hi) as (_ & _ & C & _).
  exact (conj (A (PyInt 200) true true) (conj C B)).
Defined.

(** Moves to NaN and to minus infinity while a move is pending. *)
Lemma move_to_non_finite_target_witness :
  move_mm (PyFloat NaN) false true moving_stage
  = Raise ValueError (drained moving_stage)
  /\ move_mm (PyFloat (Infinity true)) true false moving_stage
     = Raise OverflowError (drained moving_stage).
Proof.
  split.
  - apply (proj1 (move_to_non_finite_target false true moving_stage 2000%Q
                    ltac:(vm_compute; discriminate)
                    ltac:(vm_compute; reflexivity)
                    ltac:(vm_compute; reflexivity))).
  - apply (proj2 (move_to_non_finite_target true false moving_stage 2000%Q
                    ltac:(vm_compute; discriminate)
                    ltac:(vm_compute; reflexivity)
                    ltac:(vm_compute; reflexivity))).
Defined.

(** The identity of the supported device, and a reply whose model field
    holds the byte [e9]. *)
Lemma get_info_decodes_witness :
  (exists r s',
      _get_info (blank (fresh info_reply)) = Ok r s'
      /\ model_number s' = Some supported_model
      /\ serial_number s' = Some 123456789
      /\ firmware_v s' = Some supported_firmware)
  /\ (exists s',
      _get_info
        (blank (fresh (repeat x00 10 ++ [x4b; xe9] ++ repeat x00 78)))
      = Raise UnicodeDecodeError s').
Proof.
  split.
  - eexists. eexists.
    assert (H : _get_info (blank (fresh info_reply)) = Ok _ _)
      by (vm_compute; reflexivity).
    destruct (proj1 (get_info_decodes (blank (fresh info_reply))) _ _ H)
      as (_ & H1 & _ & (n & H2 & H3 & _) & (v & H4 & H5 & _) & _).
    split; [exact H|].
    split; [rewrite H1; vm_compute; reflexivity|].
    split; [rewrite H2, H3; vm_compute; reflexivity|].
    rewrite H4, H5. vm_compute. reflexivity.
  - eexists.
    apply (proj2 (get_info_decodes
                    (blank (fresh (repeat x00 10 ++ [x4b; xe9] ++ repeat x00 78))))).
    + vm_compute. reflexivity.
    + vm_compute. reflexivity.
Defined.

(** A port on which nothing ever arrives. *)
Lemma silent_device_witness :
  (exists s',
      __init__ (Some (fresh [])) = Started (Raise AssertionError s')
      /\ model_number s' = Some EmptyString
      /\ port_sent (port s') = cmd_get_info)
  /\ _home (stage (fresh []) (Finite 0%Q) false)
     = Ok tt (set_port (mock_write cmd_home (fresh []))
                (stage (fresh []) (Finite 0%Q) false)).
Proof.
  destruct (@silent_device MockPort MockTransport) as [A B]. split.
  - destruct (A (fresh [])) as (s' & H1 & H2 & H3).
    + vm_compute. reflexivity.
    + vm_compute. reflexivity.
    + exists s'. split; [exact H1|]. split; [exact H2|].
      rewrite H3. vm_compute. reflexivity.
  - rewrite (B (stage (fresh []) (Finite 0%Q) false)).
    + vm_compute. reflexivity.
    + vm_compute. reflexivity.
Defined.

(** A stage whose device will report the count of an absolute move to
    20 mm. *)
Definition reporting_stage : Controller MockPort :=
  stage (fresh (position_reply [xa4; x9c; x00; x00])) (Finite 0%Q) false.

(** The far end of the travel as an int, and a third of a millimetre as a
    float while a move is pending. *)
Lemma travel_is_reachable_witness :
  (exists c m p,
      0 <= c <= 200000
      /\ (Qabs (inject_Z c - 100 * 2000) <= (1 # 2) + (1 # 10000000000))%Q
      /\ (Qabs (m - 100) <= (1 # 4000) + (1 # 1000000000000))%Q
      /\ to_bytes_little_signed 4 (c + 100) = inr p
      /\ let s0 := drained idle_stage in
         let cmd := move_cmd false [x01; x00] p in
         move_mm (PyInt 100) false true idle_stage
         = if Nat.eqb (port_inWaiting (port_write cmd (port s0))) 0
           then Ok tt (after_move true cmd (Finite m) s0)
           else Raise AssertionError
                  (set_port (port_write cmd (port s0))
                     (set_position_mm (Finite m) s0)))
  /\ (exists c m p,
      0 <= c <= 200000
      /\ (Qabs (inject_Z c - (1 # 3) * 2000) <= (1 # 2) + (1 # 10000000000))%Q
      /\ (Qabs (m - (1 # 3)) <= (1 # 4000) + (1 # 1000000000000))%Q
      /\ to_bytes_little_signed 4 (c + 100) = inr p
      /\ let s0 := drained moving_stage in
         let cmd := move_cmd false [x01; x00] p in
         move_mm (PyFloat (Finite (1 # 3))) false false moving_stage
         = if Nat.eqb (port_inWaiting (port_write cmd (port s0))) 0
           then Ok tt (after_move false cmd (Finite m) s0)
           else Raise AssertionError
                  (set_port (port_write cmd (port s0))
                     (set_position_mm (Finite m) s0))).
Proof.
  split.
  - apply (travel_is_reachable (PyInt 100) 100%Q true idle_stage [x01; x00]).
    + vm_compute. repeat split.
    + vm_compute. discriminate.
    + reflexivity.
    + reflexivity.
    + vm_compute. split; discriminate.
  - apply (travel_is_reachable (PyFloat (Finite (1 # 3))) (1 # 3)%Q false
             moving_stage [x01; x00]).
    + vm_compute. repeat split.
    + vm_compute. discriminate.
    + reflexivity.
    + reflexivity.
    + vm_compute. split; discriminate.
Defined.

(** The device reports 40100 counts, the count of an absolute move to
    20 mm. *)
Lemma position_read_back_witness :
  exists v,
    get_position_mm reporting_stage
    = Ok (Finite v)
        (set_position_mm (Finite v)
           (set_ch_id_bytes
              (slice 6 8
                 (fst (port_read 12
                         (port_write cmd_get_position (port reporting_stage)))))
              (set_port
                 (snd (port_read 12
                         (port_write cmd_get_position (port reporting_stage))))
                 reporting_stage)))
    /\ (Qabs (v - inject_Z 40000 / 2000) <= 1 # 1000000000000)%Q.
Proof.
  apply (position_read_back 40000 reporting_stage).
  - vm_compute. repeat split.
  - lia.
  - vm_compute. reflexivity.
  - vm_compute. reflexivity.
Defined.

(** Two thousand kilometres as an absolute target, and the first relative
    step that does not fit, taken while a move is pending. *)
Lemma far_target_overflows_witness :
  (exists s',
      move_mm (PyInt 2000000) false true idle_stage = Raise OverflowError s'
      /\ port_sent (port s') = port_sent (port idle_stage))
  /\ (exists s',
      move_mm (PyInt (-1073742)) true false moving_stage = Raise OverflowError s'
      /\ port_sent (port s') = port_sent (port moving_stage)).
Proof.
  split.
  - apply (far_target_overflows 2000000 false true idle_stage).
    + vm_compute. repeat split.
    + vm_compute. discriminate.
    + discriminate.
    + lia.
  - apply (far_target_overflows (-1073742) true false moving_stage).
    + vm_compute. repeat split.
    + vm_compute. discriminate.
    + intros _. vm_compute. discriminate.
    + lia.
Defined.

End MoreScenarios.
